(** * russian-smb-companies: the command line front end and the Spark stage

    A shallow embedding of [ru_smb_companies/__main__.py] and of
    [ru_smb_companies/stages/spark_stage.py], with the properties the
    design document states about them.

    Python values are embedded as follows.
    - A [pathlib.Path] is the list of its components; [str(path)] joins
      them with a slash.
    - The data tree on disk is a [Node]; a CSV file is the list of its
      records, each record the list of its cell texts as they stand between
      the delimiters (quotes included).
    - Statements that print, raise or touch the disk run in the monad [M]
      over a [World]: the data tree, the configuration file, the lines
      printed and the calls made to classes that live in other files. *)

From Stdlib Require Import ZArith Lia List Bool Ascii String.
From stdpp Require Import base option list strings gmap pretty.

Set Warnings "-register-all".

Local Open Scope string_scope.
Local Open Scope list_scope.

(** ** Python outcomes *)

Module Py.

(** The exceptions the two files can end in. [SparkUpgradeException] is
    the failure of a Spark job over a date text that only the parser of
    Spark 2 reads; it carries the text. [ConfigurationError] is the fatal
    error of the design document for a run that cannot start. *)
Inductive Exc : Type :=
| NameError (name : string)
| AttributeError (msg : string)
| TypeError (msg : string)
| RuntimeError (msg : string)
| FileExistsError (path : list string)
| PermissionError (path : list string)
| NotADirectoryError (path : list string)
| ShutilError (msg : string)
| SparkError (msg : string)
| SparkUpgradeException (text : string)
| ConfigurationError (msg : string)
| BadParameter (param : string) (msg : string).

(** A statement returns, raises, or leaves through the command line
    library (help screen). *)
Inductive Outcome (A : Type) : Type :=
| Return (a : A)
| Raise (e : Exc)
| HelpShown.

Arguments Return {A} a.
Arguments Raise {A} e.
Arguments HelpShown {A}.


(** What [json.load] gives back; [JNull] is [None]. An object keeps the
    order of its keys, as a [dict] does. *)
Inductive JValue : Type :=
| JNull
| JBool (b : bool)
| JNum (z : Z)
| JStr (s : string)
| JArr (items : list JValue)
| JObj (items : list (string * JValue)).

End Py.

(** ** pathlib *)

Module Pathlib.

Definition Path : Type := list string.

Fixpoint join (sep : string) (l : list string) : string :=
  match l with
  | [] => ""
  | [x] => x
  | x :: rest => x ++ sep ++ join sep rest
  end.

(** [str(path)]; the empty path is the current directory. *)
Definition str (p : Path) : string :=
  match p with [] => "." | _ => join "/" p end.

(** [path / name] *)
Definition div (p : Path) (name : string) : Path := p ++ [name].

(** [path.name]: the last component. *)
Definition name (p : Path) : string := List.last p "".

(** [path.parent] *)
Definition parent (p : Path) : Path := List.removelast p.

(** [s.rfind(c)]: the index of the last occurrence. *)
Fixpoint rfind (c : ascii) (s : string) : option nat :=
  match s with
  | EmptyString => None
  | String a s' =>
      match rfind c s' with
      | Some i => Some (S i)
      | None => if Ascii.eqb a c then Some 0 else None
      end
  end.

(** [PurePath.suffix]:
    [i = name.rfind('.'); name[i:] if 0 < i < len(name) - 1 else ''] *)
Definition suffix_of_name (nm : string) : string :=
  match rfind "." nm with
  | Some i =>
      if ((0 <? i)%nat && (i <? String.length nm - 1)%nat)%bool
      then String.substring i (String.length nm - i)%nat nm
      else ""
  | None => ""
  end.

Definition suffix (p : Path) : string := suffix_of_name (name p).

(** Shell patterns as [Path.glob] takes them: [*] is any run of
    characters, [?] any one character, everything else stands for itself
    (the two patterns of the source, [data-*.csv] and [*.csv], have no
    bracket expression). *)
Fixpoint fnmatch (pat : string) (s : string) {struct pat} : bool :=
  match pat with
  | EmptyString => match s with EmptyString => true | _ => false end
  | String p pat' =>
      if Ascii.eqb p "*" then
        (fix star (s : string) : bool :=
           fnmatch pat' s ||
           match s with
           | EmptyString => false
           | String _ s' => star s'
           end) s
      else
        match s with
        | EmptyString => false
        | String c s' =>
            (Ascii.eqb p "?" || Ascii.eqb p c) && fnmatch pat' s'
        end
  end.

End Pathlib.

(** ** The data tree *)

Module FS.
Import Pathlib.

(** One record of a CSV file: its cell texts. *)
Definition Record_ : Type := list string.

Inductive Node : Type :=
| File (readable : bool) (records : list Record_)
| Dir (readable : bool) (entries : list (string * Node)).

Fixpoint assoc {A} (k : string) (l : list (string * A)) : option A :=
  match l with
  | [] => None
  | (k', v) :: rest => if String.eqb k k' then Some v else assoc k rest
  end.

(** Replace the entry named [k], or add it at the end. *)
Fixpoint put {A} (k : string) (v : A) (l : list (string * A))
  : list (string * A) :=
  match l with
  | [] => [(k, v)]
  | (k', v') :: rest =>
      if String.eqb k k' then (k, v) :: rest else (k', v') :: put k v rest
  end.

Fixpoint resolve (root : Node) (p : Path) {struct p} : option Node :=
  match p with
  | [] => Some root
  | c :: p' =>
      match root with
      | Dir _ entries =>
          match assoc c entries with
          | Some n => resolve n p'
          | None => None
          end
      | File _ _ => None
      end
  end.

(** [path.exists()] *)
Definition exists_ (root : Node) (p : Path) : bool :=
  match resolve root p with Some _ => true | None => false end.

(** [path.is_dir()] *)
Definition is_dir (root : Node) (p : Path) : bool :=
  match resolve root p with Some (Dir _ _) => true | _ => false end.

(** [os.access(path, os.R_OK)] *)
Definition readable (root : Node) (p : Path) : bool :=
  match resolve root p with
  | Some (File r _) => r
  | Some (Dir r _) => r
  | None => false
  end.

(** [path.glob(pattern)] for a pattern without a slash: the children
    whose name matches, files and directories alike. pathlib swallows the
    permission error of a directory it cannot list. *)
Definition glob (root : Node) (p : Path) (pat : string) : list Path :=
  match resolve root p with
  | Some (Dir true entries) =>
      List.map (fun e => div p (fst e))
               (List.filter (fun e => fnmatch pat (fst e)) entries)
  | _ => []
  end.

(** [path.mkdir(parents=True, exist_ok=True)]: [None] when a component
    on the way is a file. *)
Fixpoint mkdir_p (root : Node) (p : Path) {struct p} : option Node :=
  match p with
  | [] => match root with Dir _ _ => Some root | File _ _ => None end
  | c :: p' =>
      match root with
      | Dir r entries =>
          let child :=
            match assoc c entries with
            | Some n => n
            | None => Dir true []
            end in
          match mkdir_p child p' with
          | Some child' => Some (Dir r (put c child' entries))
          | None => None
          end
      | File _ _ => None
      end
  end.

(** Put [n] at [p]; every parent has to be a directory already. *)
Fixpoint place (root : Node) (p : Path) (n : Node) {struct p}
  : option Node :=
  match p with
  | [] => Some n
  | c :: p' =>
      match root with
      | Dir r entries =>
          match p' with
          | [] => Some (Dir r (put c n entries))
          | _ =>
              match assoc c entries with
              | Some child =>
                  match place child p' n with
                  | Some child' => Some (Dir r (put c child' entries))
                  | None => None
                  end
              | None => None
              end
          end
      | File _ _ => None
      end
  end.

End FS.

(** ** Dates and their textual patterns *)

Module Dates.

(** A calendar date; the calendar is the proleptic Gregorian one, which
    Spark 3 uses throughout. *)
Record Date : Type := mkDate { year : nat; month : nat; day : nat }.

Definition is_digit (c : ascii) : bool :=
  ((48 <=? nat_of_ascii c)%nat && (nat_of_ascii c <=? 57)%nat)%bool.

Definition digit_val (c : ascii) : nat := nat_of_ascii c - 48.

(** Exactly [n] decimal digits from the front of [s]. *)
Fixpoint take_digits (n : nat) (acc : N) (s : string)
  : option (N * string) :=
  match n with
  | O => Some (acc, s)
  | S n' =>
      match s with
      | String c s' =>
          if is_digit c
          then take_digits n' (10 * acc + N.of_nat (digit_val c))%N s'
          else None
      | EmptyString => None
      end
  end.

(** All the digits at the front of [s]: [count] grown by their number,
    [acc] by their value, and the rest of the text. *)
Fixpoint take_number (s : string) (count : nat) (acc : N)
  : nat * N * string :=
  match s with
  | String c s' =>
      if is_digit c
      then take_number s' (S count) (10 * acc + N.of_nat (digit_val c))%N
      else (count, acc, s)
  | EmptyString => (count, acc, s)
  end.

(** The blanks of [Character.isWhitespace] among the ASCII characters. *)
Definition is_space (c : ascii) : bool :=
  let n := nat_of_ascii c in
  (((9 <=? n)%nat && (n <=? 13)%nat) || ((28 <=? n)%nat && (n <=? 32)%nat))%bool.

Fixpoint skip_spaces (s : string) : string :=
  match s with
  | String c s' => if is_space c then skip_spaces s' else s
  | EmptyString => s
  end.

Inductive Field : Type := FDay | FMonth | FYear.

Definition field_eqb (a b : Field) : bool :=
  match a, b with
  | FDay, FDay | FMonth, FMonth | FYear, FYear => true
  | _, _ => false
  end.

(** One element of a pattern: a run of the same pattern letter, or a
    literal character. *)
Inductive Tok : Type :=
| TField (f : Field) (width : nat)
| TLit (c : ascii).

Definition field_of (c : ascii) : option Field :=
  if Ascii.eqb c "d" then Some FDay
  else if Ascii.eqb c "M" then Some FMonth
  else if Ascii.eqb c "y" then Some FYear
  else None.

Fixpoint tokenize (fmt : string) : list Tok :=
  match fmt with
  | EmptyString => []
  | String c fmt' =>
      match field_of c, tokenize fmt' with
      | Some f, TField f' w :: rest =>
          if field_eqb f f' then TField f (S w) :: rest
          else TField f 1 :: TField f' w :: rest
      | Some f, rest => TField f 1 :: rest
      | None, rest => TLit c :: rest
      end
  end.

(** What has been read of a date: the day, the month, and the year with
    its sign ([true] for minus). *)
Record Partial : Type :=
  mkPartial { p_day : option N; p_month : option N;
              p_year : option (bool * N) }.

(** The year field of [w] letters, four or more, as the formatter of
    [java.time] reads it: at least [w] digits and at most 19; more than
    [w] only behind a plus sign, which is refused before [w] digits or
    fewer; a minus sign before any number but zero. *)
Definition take_year (w : nat) (s : string) : option (bool * N * string) :=
  let number (s0 : string) : option (nat * N * string) :=
    match take_digits w 0 s0 with
    | Some (v, s1) => Some (take_number s1 O v)
    | None => None
    end in
  match s with
  | String c s' =>
      if Ascii.eqb c "+" then
        match number s' with
        | Some (extra, v, rest) =>
            if ((1 <=? extra)%nat && (w + extra <=? 19)%nat)%bool
            then Some (false, v, rest) else None
        | None => None
        end
      else if Ascii.eqb c "-" then
        match number s' with
        | Some (extra, v, rest) =>
            if ((w + extra <=? 19)%nat && negb (v =? 0)%N)%bool
            then Some (true, v, rest) else None
        | None => None
        end
      else
        match number s with
        | Some (O, v, rest) => Some (false, v, rest)
        | _ => None
        end
  | EmptyString => None
  end.

(** Read [s] along the pattern as the formatter of [java.time] does that
    Spark 3 builds from it: the whole text has to be used up; a day or a
    month field of two letters takes exactly two digits, a year field of
    four letters or more is read by [take_year]. The patterns of the stage
    have no other field (dd.MM.yyyy to read, yyyy-MM-dd to write); along a
    field of another width no text is read here. *)
Fixpoint parse_toks (toks : list Tok) (s : string) (acc : Partial)
  : option Partial :=
  match toks with
  | [] => match s with EmptyString => Some acc | _ => None end
  | TField FYear w :: rest =>
      if (4 <=? w)%nat then
        match take_year w s with
        | Some (neg, v, s') =>
            parse_toks rest s'
                       (mkPartial (p_day acc) (p_month acc) (Some (neg, v)))
        | None => None
        end
      else None
  | TField f w :: rest =>
      if (w =? 2)%nat then
        match take_digits 2 0 s with
        | Some (v, s') =>
            parse_toks rest s'
                       (match f with
                        | FDay => mkPartial (Some v) (p_month acc) (p_year acc)
                        | _ => mkPartial (p_day acc) (Some v) (p_year acc)
                        end)
        | None => None
        end
      else None
  | TLit c :: rest =>
      match s with
      | String a s' => if Ascii.eqb a c then parse_toks rest s' acc else None
      | EmptyString => None
      end
  end.

(** The parser of Spark 2 (FastDateFormat), which Spark 3 asks when its
    own has failed: does it read [s] along the pattern? Blanks before a
    number are skipped; a number is all the digits that follow, at least
    one, and has to fit a 32-bit integer; a literal has to be there; what
    follows the last element is not looked at. Its calendar is lenient:
    any day and month number makes a date (31.02 is the third of March).
    The patterns of the stage have a literal between their fields. *)
Fixpoint legacy_reads (toks : list Tok) (s : string) : bool :=
  match toks with
  | [] => true
  | TField _ _ :: rest =>
      match take_number (skip_spaces s) O 0 with
      | (O, _, _) => false
      | (_, v, s') => ((v <=? 2147483647)%N && legacy_reads rest s')%bool
      end
  | TLit c :: rest =>
      match s with
      | String a s' => (Ascii.eqb a c && legacy_reads rest s')%bool
      | EmptyString => false
      end
  end.

Definition leap (y : nat) : bool :=
  (((y mod 4 =? 0) && negb (y mod 100 =? 0)) || (y mod 400 =? 0))%nat%bool.

Definition days_in_month (y m : nat) : nat :=
  match m with
  | 1 | 3 | 5 | 7 | 8 | 10 | 12 => 31
  | 4 | 6 | 9 | 11 => 30
  | 2 => if leap y then 29 else 28
  | _ => 0
  end.

(** The date is in the calendar. *)
Definition valid (d : Date) : bool :=
  ((1 <=? month d)%nat && (month d <=? 12)%nat &&
   (1 <=? day d)%nat && (day d <=? days_in_month (year d) (month d))%nat)%bool.

(** Spark keeps a date as a 32-bit number of days: the dates from the
    year -5877641, June 23, to the year 5881580, July 11. *)
Definition in_days (neg : bool) (y : N) (m d : nat) : bool :=
  if neg then
    ((y <? 5877641)%N ||
     ((y =? 5877641)%N &&
      ((6 <? m)%nat || ((m =? 6)%nat && (23 <=? d)%nat))))%bool
  else
    ((y <? 5881580)%N ||
     ((y =? 5881580)%N &&
      ((m <? 7)%nat || ((m =? 7)%nat && (d <=? 11)%nat))))%bool.

(** What the CSV reader of Spark 3 makes of a date text under the time
    parser policy it has when none is set: a date; a date before the year
    0, whose year is minus the year given; no date; or the text that only
    the parser of Spark 2 reads, on which the reader fails. *)
Inductive Reading : Type :=
| IsDate (d : Date)
| IsDateBefore (d : Date)
| NoDate
| OldReading.

(** Parse [s] with the pattern [fmt]. A text the formatter reads and
    that names a day of the calendar is that date, when Spark can keep it.
    A text the formatter does not read, or that names a day that is not in
    the calendar, is handed to the parser of Spark 2: where that one reads
    it the reader fails, where it does not the text has no date. *)
Definition parse (fmt : string) (s : string) : Reading :=
  let toks := tokenize fmt in
  let old := if legacy_reads toks s then OldReading else NoDate in
  match parse_toks toks s (mkPartial None None None) with
  | Some (mkPartial (Some d) (Some m) (Some (neg, y))) =>
      if (y <=? 5881580)%N then
        let dt := mkDate (N.to_nat y) (N.to_nat m) (N.to_nat d) in
        if valid dt then
          if in_days neg y (month dt) (day dt)
          then (if neg then IsDateBefore dt else IsDate dt)
          else NoDate
        else old
      else NoDate
  | _ => old
  end.

Definition digit_char (n : nat) : ascii := ascii_of_nat (48 + n).

(** The last [w] decimal digits of [n], the first of them first. *)
Fixpoint digits (w : nat) (n : nat) : string :=
  match w with
  | O => ""
  | S w' => String (digit_char ((n / 10 ^ w') mod 10)) (digits w' n)
  end.

(** A number on [w] places at least. *)
Definition pad (w : nat) (n : nat) : string :=
  if (n <? 10 ^ w)%nat then digits w n else pretty n.

(** A year on [w] places at least, as the formatter prints it: a plus
    sign before a year that needs more places, a minus sign before a year
    that is before the year 0. *)
Definition pad_year (neg : bool) (w : nat) (n : nat) : string :=
  if neg then String "-" (pad w n)
  else if (n <? 10 ^ w)%nat then digits w n else String "+" (pretty n).

Definition get_field (f : Field) (d : Date) : nat :=
  match f with FDay => day d | FMonth => month d | FYear => year d end.

Fixpoint format_toks (neg : bool) (toks : list Tok) (d : Date) : string :=
  match toks with
  | [] => ""
  | TField FYear w :: rest =>
      pad_year neg w (year d) ++ format_toks neg rest d
  | TField f w :: rest => pad w (get_field f d) ++ format_toks neg rest d
  | TLit c :: rest => String c (format_toks neg rest d)
  end.

(** The text of a date in the pattern [fmt]. *)
Definition format (fmt : string) (d : Date) : string :=
  format_toks false (tokenize fmt) d.

(** The text of the date before the year 0 whose year is minus that of
    [d]. *)
Definition format_before (fmt : string) (d : Date) : string :=
  format_toks true (tokenize fmt) d.



(** The order of the calendar. *)
Definition ltb (a b : Date) : bool :=
  ((year a <? year b) ||
   ((year a =? year b) &&
    ((month a <? month b) ||
     ((month a =? month b) && (day a <? day b)))))%nat%bool.

End Dates.

(** ** The part of Spark the stage uses

    [pyspark] is a library; its CSV source is embedded as Spark 3 has it
    (3.3 and later, with the settings a session starts with), as far as
    the options of the stage reach: the tokenizer and the writer behind
    [read.csv] and [write.csv], the conversion of the cells, and for dates
    the formatter of [java.time] with the parser of Spark 2 behind it.
    Texts are taken as ASCII. *)

Module Spark.
Import FS.

Inductive DataType : Type := StringType | DateType | IntegerType.

(** A schema: the columns in order. *)
Definition StructType : Type := list (string * DataType).

(** The value of a cell. A data frame is lazy: a cell whose text makes
    the reader fail is a cell all the same, and the failure comes when the
    cell is computed, which counting the rows does not do: [VRaises]. A
    date before the year 0 has the year minus that of [VDateBefore]. *)
Inductive Value : Type :=
| VStr (s : string)
| VDate (d : Dates.Date)
| VDateBefore (d : Dates.Date)
| VInt (z : Z)
| VRaises (e : Py.Exc).

(** A cell of a data frame; [None] is SQL null. *)
Definition Cell : Type := option Value.

Record DataFrame : Type :=
  mkDataFrame { schema : StructType; rows : list (list Cell) }.

Definition count (df : DataFrame) : nat := List.length (rows df).


Definition cell_failure (c : Cell) : option Py.Exc :=
  match c with
  | Some (VRaises e) => Some e
  | _ => None
  end.

Fixpoint first_some {A B} (f : A -> option B) (l : list A) : option B :=
  match l with
  | [] => None
  | x :: rest =>
      match f x with
      | Some b => Some b
      | None => first_some f rest
      end
  end.

(** The failure that computing the whole frame ends in, if any: that of
    the first cell that has one. *)
Definition first_failure (df : DataFrame) : option Py.Exc :=
  first_some (first_some cell_failure) (rows df).

(** How the reader treats a record it cannot convert. *)
Inductive ParseMode : Type := PERMISSIVE | DROPMALFORMED | FAILFAST.

Definition dquote : ascii := "034"%char.
Definition backslash : ascii := "092"%char.

Record ReadOptions : Type :=
  mkReadOptions {
    r_header : bool;
    r_dateFormat : string;
    r_escape : ascii;
    r_quote : ascii;
    r_nullValue : string;
    r_mode : ParseMode
  }.

(** The reader's defaults. *)
Definition default_read_options : ReadOptions :=
  {| r_header := false; r_dateFormat := "yyyy-MM-dd";
     r_escape := backslash; r_quote := dquote;
     r_nullValue := ""; r_mode := PERMISSIVE |}.

(** Undo the escapes inside a quoted cell: an escape character followed
    by a quote stands for the quote. *)
Fixpoint unescape (esc q : ascii) (s : string) : string :=
  match s with
  | String a ((String b rest) as s') =>
      if (Ascii.eqb a esc && Ascii.eqb b q)%bool
      then String q (unescape esc q rest)
      else String a (unescape esc q s')
  | _ => s
  end.

Fixpoint drop_last (s : string) : string :=
  match s with
  | EmptyString => ""
  | String _ EmptyString => ""
  | String a s' => String a (drop_last s')
  end.

Fixpoint last_char (s : string) : option ascii :=
  match s with
  | EmptyString => None
  | String a EmptyString => Some a
  | String _ s' => last_char s'
  end.

(** The value of a cell text as the tokenizer hands it on: what is
    between the quotes when the cell is quoted, the text itself otherwise.
    Blanks are kept. *)
Definition unquote (o : ReadOptions) (raw : string) : string :=
  match raw with
  | String a body =>
      match last_char body with
      | Some z =>
          if (Ascii.eqb a (r_quote o) && Ascii.eqb z (r_quote o))%bool
          then unescape (r_escape o) (r_quote o) (drop_last body)
          else raw
      | None => raw
      end
  | EmptyString => raw
  end.

(** [Integer.parseInt]: an optional sign, then digits and nothing else,
    at least one, and a value that fits 32 bits. *)
Definition parse_int (s : string) : option Z :=
  let number (neg : bool) (s' : string) : option Z :=
    match Dates.take_number s' O 0 with
    | (S _, v, EmptyString) =>
        let z := if neg then Z.opp (Z.of_N v) else Z.of_N v in
        if ((-2147483648 <=? z) && (z <=? 2147483647))%Z%bool
        then Some z else None
    | _ => None
    end in
  match s with
  | EmptyString => None
  | String c s' =>
      if Ascii.eqb c "-" then number true s'
      else if Ascii.eqb c "+" then number false s'
      else number false s
  end.

(** Convert one cell text to the column's type. The outer [None] says
    the text does not fit the type; [Some None] is null: the value of the
    cell, taken out of its quotes, is the [nullValue] (so the empty cell
    and the cell of two quotes are both null when none is set). A date
    text that only the parser of Spark 2 reads gives the cell that fails
    when it is computed. *)
Definition convert_cell (o : ReadOptions) (ty : DataType) (raw : string)
  : option Cell :=
  let v := unquote o raw in
  if String.eqb v (r_nullValue o) then Some None
  else
    match ty with
    | StringType => Some (Some (VStr v))
    | DateType =>
        match Dates.parse (r_dateFormat o) v with
        | Dates.IsDate d => Some (Some (VDate d))
        | Dates.IsDateBefore d => Some (Some (VDateBefore d))
        | Dates.NoDate => None
        | Dates.OldReading =>
            Some (Some (VRaises (Py.SparkUpgradeException v)))
        end
    | IntegerType =>
        match parse_int v with
        | Some z => Some (Some (VInt z))
        | None => None
        end
    end.

(** The cells of a record along the schema: a cell that is not there has
    no conversion, cells beyond the schema are left out. *)
Fixpoint convert_fields (o : ReadOptions) (sch : StructType)
         (rec : Record_) : list (option Cell) :=
  match sch with
  | [] => []
  | (_, ty) :: sch' =>
      match rec with
      | [] => None :: convert_fields o sch' []
      | raw :: rec' => convert_cell o ty raw :: convert_fields o sch' rec'
      end
  end.

(** A record is malformed when a cell does not convert or the number of
    cells is not that of the schema. *)
Definition malformed (o : ReadOptions) (sch : StructType) (rec : Record_)
  : bool :=
  (negb (List.length rec =? List.length sch)%nat ||
   existsb (fun c => match c with None => true | Some _ => false end)
           (convert_fields o sch rec))%bool.

(** In permissive mode a cell that does not convert becomes null. *)
Definition permissive_row (o : ReadOptions) (sch : StructType)
           (rec : Record_) : list Cell :=
  List.map (fun c => match c with Some v => v | None => None end)
           (convert_fields o sch rec).

(** The rows of a list of records, by mode. *)
Fixpoint convert_records (o : ReadOptions) (sch : StructType)
         (recs : list Record_) : Py.Outcome (list (list Cell)) :=
  match recs with
  | [] => Py.Return []
  | rec :: recs' =>
      match convert_records o sch recs' with
      | Py.Return rest =>
          if malformed o sch rec then
            match r_mode o with
            | PERMISSIVE => Py.Return (permissive_row o sch rec :: rest)
            | DROPMALFORMED => Py.Return rest
            | FAILFAST =>
                Py.Raise (Py.SparkError "Malformed records are detected")
            end
          else Py.Return (permissive_row o sch rec :: rest)
      | other => other
      end
  end.

(** The data records of one file: without the first one when the file
    has a header, which a given schema replaces. *)
Definition data_records (o : ReadOptions) (recs : list Record_)
  : list Record_ :=
  if r_header o then List.tl recs else recs.

(** [reader.options(..).schema(schema).csv(files)], on the records of
    the files. *)
Definition read_csv (o : ReadOptions) (sch : StructType)
           (files : list (list Record_)) : Py.Outcome DataFrame :=
  match convert_records o sch (List.concat (List.map (data_records o) files)) with
  | Py.Return rs => Py.Return (mkDataFrame sch rs)
  | Py.Raise e => Py.Raise e
  | Py.HelpShown => Py.HelpShown
  end.

Record WriteOptions : Type :=
  mkWriteOptions {
    w_header : bool;
    w_nullValue : string;
    w_emptyValue : string;
    w_escape : ascii;
    w_quote : ascii;
    w_sep : ascii;
    w_dateFormat : string
  }.

(** The writer's defaults; an empty string is written as two quotes. *)
Definition default_write_options : WriteOptions :=
  {| w_header := false; w_nullValue := "";
     w_emptyValue := String dquote (String dquote EmptyString);
     w_escape := backslash; w_quote := dquote; w_sep := ","%char;
     w_dateFormat := "yyyy-MM-dd" |}.

Fixpoint contains (c : ascii) (s : string) : bool :=
  match s with
  | EmptyString => false
  | String a s' => (Ascii.eqb a c || contains c s')%bool
  end.

(** The characters the writer trims at both ends of a value: those up to
    the space, the null character apart. *)
Definition is_blank (c : ascii) : bool :=
  ((1 <=? nat_of_ascii c)%nat && (nat_of_ascii c <=? 32)%nat)%bool.

Fixpoint drop_blanks (s : string) : string :=
  match s with
  | String c s' => if is_blank c then drop_blanks s' else s
  | EmptyString => s
  end.

Fixpoint drop_blanks_end (s : string) : string :=
  match s with
  | EmptyString => ""
  | String c s' =>
      match drop_blanks_end s' with
      | EmptyString => if is_blank c then "" else String c ""
      | t => String c t
      end
  end.

Definition trim (s : string) : string := drop_blanks_end (drop_blanks s).

Definition starts_with (c : ascii) (s : string) : bool :=
  match s with
  | String a _ => Ascii.eqb a c
  | EmptyString => false
  end.

(** The comment character of the writer, which Spark leaves as it is. *)
Definition hash : ascii := "#"%char.

Definition needs_quote (o : WriteOptions) (s : string) : bool :=
  (contains (w_sep o) s || contains (w_quote o) s ||
   contains "010"%char s || contains "013"%char s)%bool.

Fixpoint escape_text (o : WriteOptions) (s : string) : string :=
  match s with
  | EmptyString => ""
  | String a s' =>
      if Ascii.eqb a (w_quote o)
      then String (w_escape o) (String a (escape_text o s'))
      else String a (escape_text o s')
  end.

(** The text [s] as the writer puts it in column [col]: trimmed at both
    ends; the [emptyValue] when nothing is left; in quotes when it holds
    the separator, a quote or a line break, or when it stands in the first
    column and begins with the comment character. *)
Definition render_text (o : WriteOptions) (col : nat) (s : string)
  : string :=
  match trim s with
  | EmptyString => w_emptyValue o
  | t =>
      if (needs_quote o t || ((col =? 0)%nat && starts_with hash s))%bool
      then String (w_quote o) (escape_text o t ++ String (w_quote o) "")
      else t
  end.

Definition render_value (o : WriteOptions) (col : nat) (v : Value)
  : string :=
  match v with
  | VStr s => render_text o col s
  | VDate d => Dates.format (w_dateFormat o) d
  | VDateBefore d => Dates.format_before (w_dateFormat o) d
  | VInt z => pretty z
  | VRaises _ => ""   (* never written: the job fails before *)
  end.

(** The text of a cell in the output: null is the [nullValue] token. *)
Definition render_cell (o : WriteOptions) (col : nat) (c : Cell) : string :=
  match c with
  | None => w_nullValue o
  | Some v => render_value o col v
  end.

(** The cells of a row from column [col] on. *)
Fixpoint render_from (o : WriteOptions) (col : nat) (r : list Cell)
  : Record_ :=
  match r with
  | [] => []
  | c :: r' => render_cell o col c :: render_from o (S col) r'
  end.

Definition render_row (o : WriteOptions) (r : list Cell) : Record_ :=
  render_from o 0 r.

(** The header: the column names, written as text values are. *)
Definition render_header (o : WriteOptions) (sch : StructType) : Record_ :=
  render_row o (List.map (fun c => Some (VStr (fst c))) sch).

Definition render_frame (o : WriteOptions) (df : DataFrame)
  : list Record_ :=
  (if w_header o then [render_header o (schema df)] else [])
    ++ List.map (render_row o) (rows df).

(** [df.coalesce(1).write.options(..).csv(dir, mode="overwrite")]: the
    job computes every cell, and fails where a cell does; else the
    directory holds one part file and the marker afterwards. The random
    part of the file name is left out. *)
Definition write_csv (o : WriteOptions) (df : DataFrame)
  : Py.Outcome (list (string * list Record_)) :=
  match first_failure df with
  | Some e => Py.Raise e
  | None =>
      Py.Return [("_SUCCESS", []); ("part-00000.csv", render_frame o df)]
  end.

End Spark.

(** ** The world of a run *)

Module Run.
Import Py Pathlib FS.

(** The configuration file in the application directory: not there,
    there but not to be opened, there with text that is not JSON, or
    holding a JSON value. *)
Inductive ConfigFile : Type :=
| Absent
| Unreadable
| Invalid
| Holds (v : JValue).

(** An argument with a default on the callee's side. *)
Inductive Arg (A : Type) : Type :=
| NotPassed
| Passed (a : A).

Arguments NotPassed {A}.
Arguments Passed {A} a.

(** Calls that leave the two files: into Spark, and into the stage
    classes of the other modules, with the arguments as passed. *)
Inductive Call : Type :=
| SessionStarted
| SessionStopped
| CsvRead (files : list Path)
| NewExtractor (storage num_workers chunksize token : JValue)
| ExtractorCall (in_dir out_dir mode : string) (clear : bool)
                (activity_codes : Arg (option (list string)))
| NewAggregator
| AggregatorCall (in_dir out_file mode : string)
                 (smb_data_file : Arg string).

(** The module-level name [app_config] of [__main__]: not bound yet,
    bound to the very dictionary [default_config] names, or bound to what
    was loaded from the file. *)
Inductive AppConfig : Type :=
| Unbound
| SameAsDefault
| Loaded (v : JValue).

Record World : Type :=
  mkWorld {
    tree : Node;
    config_file : ConfigFile;
    ui_web_url : string;
    default_config : list (string * JValue);
    app_config : AppConfig;
    stdout : list string;
    calls : list Call
  }.

Definition M (A : Type) : Type := World -> Outcome A * World.

Definition ret {A} (a : A) : M A := fun w => (Return a, w).

Definition bind {A B} (c : M A) (k : A -> M B) : M B :=
  fun w =>
    match c w with
    | (Return a, w') => k a w'
    | (Raise e, w') => (Raise e, w')
    | (HelpShown, w') => (HelpShown, w')
    end.

Definition raise {A} (e : Exc) : M A := fun w => (Raise e, w).

(** The world after one more line on the standard output. *)
Definition says (line : string) (w : World) : World :=
  mkWorld (tree w) (config_file w) (ui_web_url w) (default_config w)
          (app_config w) (stdout w ++ [line]) (calls w).

(** The world after one more call. *)
Definition called (c : Call) (w : World) : World :=
  mkWorld (tree w) (config_file w) (ui_web_url w) (default_config w)
          (app_config w) (stdout w) (calls w ++ [c]).

Definition print (line : string) : M unit :=
  fun w => (Return tt, says line w).

Definition call (c : Call) : M unit :=
  fun w => (Return tt, called c w).

Definition get_tree : M Node := fun w => (Return (tree w), w).

Definition set_tree (t : Node) : M unit :=
  fun w =>
    (Return tt,
     mkWorld t (config_file w) (ui_web_url w) (default_config w)
             (app_config w) (stdout w) (calls w)).

Definition set_config_file (c : ConfigFile) : M unit :=
  fun w =>
    (Return tt,
     mkWorld (tree w) c (ui_web_url w) (default_config w)
             (app_config w) (stdout w) (calls w)).

Definition set_default_config (d : list (string * JValue)) : M unit :=
  fun w =>
    (Return tt,
     mkWorld (tree w) (config_file w) (ui_web_url w) d
             (app_config w) (stdout w) (calls w)).

Definition set_app_config (a : AppConfig) : M unit :=
  fun w =>
    (Return tt,
     mkWorld (tree w) (config_file w) (ui_web_url w) (default_config w)
             a (stdout w) (calls w)).

Definition get_world : M World := fun w => (Return w, w).

Definition lift {A} (o : Outcome A) : M A := fun w => (o, w).

End Run.

Notation "'let*' x ':=' c 'in' k" :=
  (Run.bind c (fun x => k))
    (at level 10, x name, c at level 100, k at level 200).
Notation "c ';;' k" :=
  (Run.bind c (fun _ => k))
    (at level 100, k at level 200, right associativity).

(** ** spark_stage.py *)

Module SparkStage.
Import Py Pathlib FS Run.

(** [SparkStage._init_spark], called by [__init__]. *)
Definition _init_spark : M unit :=
  print "Starting Spark" ;;
  call SessionStarted ;;
  fun w =>
    print ("Spark session has started. You can monitor it at "
             ++ ui_web_url w) w.

Definition __init__ : M unit := _init_spark.

(** [SparkStage.__del__] *)
Definition __del__ : M unit :=
  print "Stopping Spark" ;;
  call SessionStopped.

(** The options [_read] gives the reader: header on, the date format
    dd.MM.yyyy, the double quote as escape character; the rest stays as
    the reader has it. *)
Definition read_options : Spark.ReadOptions :=
  {| Spark.r_header := true;
     Spark.r_dateFormat := "dd.MM.yyyy";
     Spark.r_escape := Spark.dquote;
     Spark.r_quote := Spark.r_quote Spark.default_read_options;
     Spark.r_nullValue := Spark.r_nullValue Spark.default_read_options;
     Spark.r_mode := Spark.r_mode Spark.default_read_options |}.

(** The options [_write] gives the writer: header on, the null value
    NA, the double quote as escape character; the rest stays as the
    writer has it. *)
Definition write_options : Spark.WriteOptions :=
  {| Spark.w_header := true;
     Spark.w_nullValue := "NA";
     Spark.w_emptyValue := Spark.w_emptyValue Spark.default_write_options;
     Spark.w_escape := Spark.dquote;
     Spark.w_quote := Spark.w_quote Spark.default_write_options;
     Spark.w_sep := Spark.w_sep Spark.default_write_options;
     Spark.w_dateFormat := Spark.w_dateFormat Spark.default_write_options |}.


(** What a method call on [None] raises. *)
Definition none_has_no_coalesce : Exc :=
  AttributeError "'NoneType' object has no attribute 'coalesce'".

Definition hidden (nm : string) : bool :=
  match nm with
  | String c _ => (Ascii.eqb c "_" || Ascii.eqb c ".")%bool
  | EmptyString => false
  end.

(** The records behind one input path of the reader: those of a file it
    may read, or of the visible files of a directory. *)
Definition load (t : Node) (p : Path) : Outcome (list (list Record_)) :=
  match resolve t p with
  | Some (File true recs) => Return [recs]
  | Some (File false _) =>
      Raise (SparkError ("Permission denied: " ++ str p))
  | Some (Dir _ entries) =>
      Return
        (List.concat
           (List.map
              (fun e =>
                 match e with
                 | (nm, File true recs) =>
                     if hidden nm then [] else [recs]
                 | _ => []
                 end) entries))
  | None => Raise (SparkError ("Path does not exist: " ++ str p))
  end.

Fixpoint load_all (t : Node) (ps : list Path)
  : Outcome (list (list Record_)) :=
  match ps with
  | [] => Return []
  | p :: ps' =>
      match load t p, load_all t ps' with
      | Return a, Return b => Return (a ++ b)
      | Raise e, _ => Raise e
      | _, other => other
      end
  end.

(** [self._session.read.options(..).schema(schema).csv(input_files)] *)
Definition session_read_csv (sch : Spark.StructType) (files : list Path)
  : M Spark.DataFrame :=
  call (CsvRead files) ;;
  let* t := get_tree in
  let* contents := lift (load_all t files) in
  lift (Spark.read_csv read_options sch contents).

(** The list [input_files] of [_read]: the chunk files of a directory,
    the path itself when its suffix is csv, nothing otherwise. *)
Definition input_files (t : Node) (in_path : Path) : list Path :=
  if is_dir t in_path then glob t in_path "data-*.csv"
  else if String.eqb (suffix in_path) "csv" then [in_path]
  else [].

Definition no_csv_notice : string :=
  "Input path does not contain readable CSV file(s)".

(** [SparkStage._read] *)
Definition _read (in_path : Path) (sch : Spark.StructType)
  : M (option Spark.DataFrame) :=
  let* t := get_tree in
  if negb (exists_ t in_path) then
    print ("Input path " ++ str in_path ++ " not found") ;;
    ret None
  else
    let files := input_files t in_path in
    if (List.length files =? 0)%nat then
      print no_csv_notice ;;
      ret None
    else
      let* data := session_read_csv sch files in
      print ("Source CSV contains " ++ pretty (Spark.count data) ++ " rows") ;;
      ret (Some data).

(** What [mkdir(parents=True, exist_ok=True)] raises when it cannot make
    [p]: the one error when [p] is there and is a file, the other when a
    file stands where one of its parents should be. *)
Definition mkdir_error (t : Node) (p : Path) : Exc :=
  match resolve t p with
  | Some (File _ _) => FileExistsError p
  | _ => NotADirectoryError p
  end.

(** [shutil.move(result, out_file)] for the part file [recs] named [nm]:
    into [out_file] when that is a directory, over it otherwise. *)
Definition move (nm : string) (recs : list Record_) (out_file : Path)
  : M unit :=
  let* t := get_tree in
  let dst :=
    if is_dir t out_file then div out_file nm else out_file in
  if (is_dir t out_file && exists_ t dst)%bool then
    raise (ShutilError ("Destination path '" ++ str dst
                          ++ "' already exists"))
  else
    match place t dst (File true recs) with
    | Some t' => set_tree t'
    | None => raise (FileExistsError dst)
    end.

(** [SparkStage._write]; [df] is what the caller passes, [None]
    included. The temporary directory is not part of the data tree. *)
Definition _write (df : option Spark.DataFrame) (out_file : Path)
  : M unit :=
  let* out_dir :=
    match df with
    | Some d => lift (Spark.write_csv write_options d)
    | None => raise none_has_no_coalesce
    end in
  let result :=
    List.hd_error
      (List.filter (fun e => fnmatch "*.csv" (fst e)) out_dir) in
  (match result with
   | None => print "Failed to save file"
   | Some _ => ret tt
   end) ;;
  let* t := get_tree in
  match mkdir_p t (parent out_file) with
  | None => raise (mkdir_error t (parent out_file))
  | Some t' =>
      set_tree t' ;;
      match result with
      | Some (nm, recs) => move nm recs out_file
      | None =>
          raise (TypeError "expected str, bytes or os.PathLike object")
      end
  end.

End SparkStage.

(** ** __main__.py *)

Module Main.
Import Py Pathlib FS Run.

(** The enumerations of [utils/enums.py], which is not among the
    sources: members and values as [__main__] uses them (the values
    [smb], [revexp], [empl], [local] and [ydisk] appear as literals, the
    stage names in the default paths of the help texts). *)
Inductive SourceDatasets : Type := smb | revexp | empl.

Definition SourceDatasets_value (d : SourceDatasets) : string :=
  match d with smb => "smb" | revexp => "revexp" | empl => "empl" end.

Definition SourceDatasets_members : list SourceDatasets :=
  [smb; revexp; empl].

Inductive StageNames : Type :=
  download | extract | aggregate | georeference | panelize.

Definition StageNames_value (s : StageNames) : string :=
  match s with
  | download => "download"
  | extract => "extract"
  | aggregate => "aggregate"
  | georeference => "georeference"
  | panelize => "panelize"
  end.

Inductive Storages : Type := local | ydisk.

Definition Storages_value (s : Storages) : string :=
  match s with local => "local" | ydisk => "ydisk" end.

(** [default_config = dict(storage="local", token="", num_workers=1,
    chunksize=16)] *)
Definition default_config_literal : list (string * JValue) :=
  [("storage", JStr "local"); ("token", JStr "");
   ("num_workers", JNum 1); ("chunksize", JNum 16)].

(** The line the module prints when the file does not load. *)
Definition failed_to_load : string :=
  "Failed to load config, default options are loaded".

(** The application directory, which [typer.get_app_dir] names: it lies
    outside the data tree. Either it is there or can be made, or
    [mkdir(parents=True, exist_ok=True)] raises [e] (a file stands where
    the directory or one of its parents should be, or the parent may not
    be written to). *)
Inductive AppDir : Type :=
| Made
| NotMade (e : Exc).

(** Line 52: [app_config_path.parent.mkdir(parents=True, exist_ok=True)].
    It stands before the [try], so what it raises ends the program. *)
Definition make_app_dir (d : AppDir) : M unit :=
  match d with
  | Made => ret tt
  | NotMade e => raise e
  end.

(** Lines 53 to 59, the [try] statement: load the file; any failure on
    the way binds [app_config] to the dictionary of [default_config]
    itself. *)
Definition load_app_config : M unit :=
  let* w := get_world in
  match config_file w with
  | Holds v => set_app_config (Loaded v)
  | Absent | Unreadable | Invalid =>
      set_app_config (Loaded (JObj [])) ;;
      print "Failed to load config, default options are loaded" ;;
      set_app_config SameAsDefault
  end.

(** The module body, lines 48 to 59: bind [default_config], make the
    application directory, load the file. *)
Definition module_body (d : AppDir) : M unit :=
  set_default_config default_config_literal ;;
  make_app_dir d ;;
  load_app_config.

(** The module body where the application directory is there or can be
    made: the import succeeds. *)
Definition import_module : M unit := module_body Made.

(** The value [app_config] names. *)
Definition read_app_config : M JValue :=
  let* w := get_world in
  match app_config w with
  | Unbound => raise (NameError "app_config")
  | SameAsDefault => ret (JObj (default_config w))
  | Loaded v => ret v
  end.

(** [d.get(key)] on a dictionary. *)
Definition dict_get (items : list (string * JValue)) (key : string)
  : JValue :=
  match assoc key items with Some x => x | None => JNull end.

(** [type(v).__name__] of what [json.load] gives back. *)
Definition py_type_name (v : JValue) : string :=
  match v with
  | JNull => "NoneType"
  | JBool _ => "bool"
  | JNum _ => "int"
  | JStr _ => "str"
  | JArr _ => "list"
  | JObj _ => "dict"
  end.

(** What the lookup of the attribute [attr] raises on a value that does
    not have it. *)
Definition no_attribute (v : JValue) (attr : string) : Exc :=
  AttributeError ("'" ++ py_type_name v ++ "' object has no attribute '"
                      ++ attr ++ "'").

(** What [v[key] = value] raises on a value that is no dictionary. *)
Definition no_item_assignment (v : JValue) : Exc :=
  match v with
  | JArr _ => TypeError "list indices must be integers or slices, not str"
  | _ => TypeError ("'" ++ py_type_name v
                        ++ "' object does not support item assignment")
  end.

(** [app_config.get(key)] *)
Definition app_config_get (key : string) : M JValue :=
  let* v := read_app_config in
  match v with
  | JObj items => ret (dict_get items key)
  | _ => raise (no_attribute v "get")
  end.

(** [app_config[key] = value]: on a dictionary shared with
    [default_config] the store is seen through both names. *)
Definition app_config_setitem (key : string) (value : JValue) : M unit :=
  let* w := get_world in
  match app_config w with
  | Unbound => raise (NameError "app_config")
  | SameAsDefault => set_default_config (put key value (default_config w))
  | Loaded (JObj items) => set_app_config (Loaded (JObj (put key value items)))
  | Loaded v => raise (no_item_assignment v)
  end.

(** [get_default_path] *)
Definition get_default_path (stage_name : string)
           (source_dataset filename : option string) : Path :=
  let path := div ["ru-smb-data"] stage_name in
  let path :=
    match source_dataset with Some d => div path d | None => path end in
  match filename with Some f => div path f | None => path end.

(** *** Names *)

Inductive PyVal : Type :=
| PvPath (p : Path)
| PvJson (v : JValue)
| PvCodes (l : option (list string))
| PvGlobal (nm : string).

(** The names bound at module level. *)
Definition module_names : list string :=
  ["enum"; "json"; "pathlib"; "List"; "Optional"; "Annotated"; "typer";
   "Aggregator"; "Downloader"; "Extractor"; "Georeferencer"; "Panelizer";
   "SourceDatasets"; "StageNames"; "Storages";
   "APP_NAME"; "app"; "download_app"; "extract_app"; "aggregate_app";
   "default_config"; "app_dir"; "app_config_path"; "f"; "app_config";
   "get_default_path"; "get_downloader";
   "download_all"; "download_smb"; "download_revexp"; "download_empl";
   "extract_all"; "extract_smb"; "extract_revexp"; "extract_empl";
   "aggregate_all"; "aggregate_smb"; "aggregate_revexp"; "aggregate_empl";
   "georeference"; "panelize"; "config"; "process"].

(** The built-in names the file uses. *)
Definition builtin_names : list string :=
  ["print"; "open"; "str"; "dict"; "bool"; "int"; "RuntimeError"].

Definition mem (nm : string) (l : list string) : bool :=
  existsb (String.eqb nm) l.

(** Evaluate the name [nm] inside a function with the local names
    [locals]: local scope, then module scope, then built-ins, else
    [NameError]. *)
Definition name_ (locals : list (string * PyVal)) (nm : string)
  : M PyVal :=
  match assoc nm locals with
  | Some v => ret v
  | None =>
      if (mem nm module_names || mem nm builtin_names)%bool
      then ret (PvGlobal nm)
      else raise (NameError nm)
  end.

Fixpoint py_repr (v : JValue) : string :=
  match v with
  | JNull => "None"
  | JBool true => "True"
  | JBool false => "False"
  | JNum z => pretty z
  | JStr s => "'" ++ s ++ "'"
  | JArr items => "[" ++ join ", " (List.map py_repr items) ++ "]"
  | JObj items =>
      "{" ++ join ", "
        (List.map (fun kv : string * JValue =>
                     match kv with
                     | (k, x) => ("'" ++ k ++ "': " ++ py_repr x)%string
                     end) items) ++ "}"
  end.

(** [str(v)] *)
Definition py_str_json (v : JValue) : string :=
  match v with JStr s => s | _ => py_repr v end.

Definition py_str (v : PyVal) : string :=
  match v with
  | PvPath p => str p
  | PvJson j => py_str_json j
  | PvCodes None => "None"
  | PvCodes (Some l) =>
      "[" ++ join ", " (List.map (fun s => ("'" ++ s ++ "'")%string) l)
          ++ "]"
  | PvGlobal nm => "<" ++ nm ++ ">"
  end.

Definition to_json (v : PyVal) : JValue :=
  match v with
  | PvJson j => j
  | PvPath p => JStr (str p)
  | PvCodes None => JNull
  | PvCodes (Some l) => JArr (List.map JStr l)
  | PvGlobal _ => JNull
  end.

Fixpoint for_each {A} (l : list A) (body : A -> M unit) : M unit :=
  match l with
  | [] => ret tt
  | x :: rest => body x ;; for_each rest body
  end.

(** *** The extract commands *)

(** The first lines of each of the four extract commands: read the four
    settings, refuse the remote storage without a token, construct the
    [Extractor]. *)
Definition make_extractor : M unit :=
  let* num_workers := app_config_get "num_workers" in
  let* chunksize := app_config_get "chunksize" in
  let* storage := app_config_get "storage" in
  let* token := app_config_get "token" in
  if (match storage with JStr s => String.eqb s "ydisk" | _ => false end
      && match token with JNull => true | _ => false end)%bool
  then raise (RuntimeError "Token is required to use ydisk storage")
  else call (NewExtractor storage num_workers chunksize token).

Definition extract_all (in_dir out_dir : Path) (clear : bool)
           (ac : option (list string)) : M unit :=
  make_extractor ;;
  for_each SourceDatasets_members
    (fun source_dataset =>
       let v := SourceDatasets_value source_dataset in
       call (ExtractorCall (str (div in_dir v)) (str (div out_dir v)) v
                           clear (Passed ac))).

Definition extract_smb (in_dir out_dir : Path) (clear : bool)
           (ac : option (list string)) : M unit :=
  make_extractor ;;
  call (ExtractorCall (str in_dir) (str out_dir)
                      (SourceDatasets_value smb) clear (Passed ac)).

Definition extract_revexp (in_dir out_dir : Path) (clear : bool)
  : M unit :=
  make_extractor ;;
  call (ExtractorCall (str in_dir) (str out_dir)
                      (SourceDatasets_value revexp) clear NotPassed).

Definition extract_empl (in_dir out_dir : Path) (clear : bool)
  : M unit :=
  make_extractor ;;
  call (ExtractorCall (str in_dir) (str out_dir)
                      (SourceDatasets_value empl) clear NotPassed).

(** *** The aggregate commands *)

Definition aggregate_all (in_dir out_dir : Path) : M unit :=
  call NewAggregator ;;
  for_each SourceDatasets_members
    (fun source_dataset =>
       let v := SourceDatasets_value source_dataset in
       let smb_data_file :=
         if (String.eqb v "revexp" || String.eqb v "empl")%bool
         then Passed (str (get_default_path (StageNames_value aggregate)
                             (Some (SourceDatasets_value smb))
                             (Some "agg.csv")))
         else NotPassed in
       call (AggregatorCall (str (div in_dir v))
                            (str (div (div out_dir v) "agg.csv"))
                            v smb_data_file)).

(** The body names [out_file]; the parameters are [in_dir] and
    [out_dir]. The callee and the arguments are evaluated from the left
    before the call. *)
Definition aggregate_smb (in_dir out_dir : Path) : M unit :=
  let locals := [("in_dir", PvPath in_dir); ("out_dir", PvPath out_dir)] in
  call NewAggregator ;;
  let* a1 := name_ locals "in_dir" in
  let* a2 := name_ locals "out_file" in
  call (AggregatorCall (py_str a1) (py_str a2)
                       (SourceDatasets_value smb) NotPassed).

Definition aggregate_revexp (in_dir out_dir smb_data_file : Path)
  : M unit :=
  let locals := [("in_dir", PvPath in_dir); ("out_dir", PvPath out_dir);
                 ("smb_data_file", PvPath smb_data_file)] in
  call NewAggregator ;;
  let* a1 := name_ locals "in_dir" in
  let* a2 := name_ locals "out_file" in
  let* a4 := name_ locals "smb_data_file" in
  call (AggregatorCall (py_str a1) (py_str a2)
                       (SourceDatasets_value revexp) (Passed (py_str a4))).

Definition aggregate_empl (in_dir out_dir smb_data_file : Path)
  : M unit :=
  let locals := [("in_dir", PvPath in_dir); ("out_dir", PvPath out_dir);
                 ("smb_data_file", PvPath smb_data_file)] in
  call NewAggregator ;;
  let* a1 := name_ locals "in_dir" in
  let* a2 := name_ locals "out_file" in
  let* a4 := name_ locals "smb_data_file" in
  call (AggregatorCall (py_str a1) (py_str a2)
                       (SourceDatasets_value empl) (Passed (py_str a4))).

(** *** The config command *)

Definition config (show : bool) (chunksize num_workers : Z)
           (storage : Storages) (ydisk_token : string) : M unit :=
  let locals :=
    [("show", PvJson (JBool show));
     ("chunksize", PvJson (JNum chunksize));
     ("num_workers", PvJson (JNum num_workers));
     ("storage", PvJson (JStr (Storages_value storage)));
     ("ydisk_token", PvJson (JStr ydisk_token))] in
  if show then
    print "Current configuration" ;;
    let* v := read_app_config in
    match v with
    | JObj items =>
        for_each items
          (fun kv => print (fst kv ++ " " ++ py_str_json (snd kv)))
    | _ => raise (no_attribute v "items")
    end
  else
    let* v := name_ locals "ydisk_token" in
    app_config_setitem "token" (to_json v) ;;
    let* v := name_ locals "extractor_num_workers" in
    app_config_setitem "num_workers" (to_json v) ;;
    let* v := name_ locals "extractor_chunksize" in
    app_config_setitem "chunksize" (to_json v) ;;
    let* v := name_ locals "storage" in
    app_config_setitem "storage" (to_json v) ;;
    let* c := read_app_config in
    set_config_file (Holds c) ;;
    print "Configuration updated".

(** *** The command line *)

(** A parsed command line: the command and its options, [None] for an
    option that was not given. The download, georeference, panelize and
    process commands only hand their arguments to classes of other
    files and are left out. *)
Inductive Command : Type :=
| ExtractAll (in_dir out_dir : option Path) (clear : bool)
             (ac : option (list string))
| ExtractSmb (in_dir out_dir : option Path) (clear : bool)
             (ac : option (list string))
| ExtractRevexp (in_dir out_dir : option Path) (clear : bool)
| ExtractEmpl (in_dir out_dir : option Path) (clear : bool)
| AggregateAll (in_dir out_dir : option Path)
| AggregateSmb (in_dir out_dir : option Path)
| AggregateRevexp (in_dir out_dir smb_data_file : option Path)
| AggregateEmpl (in_dir out_dir smb_data_file : option Path)
| Config (show : bool) (chunksize num_workers : option Z)
         (storage : option Storages) (ydisk_token : option string).

Definition or_default {A} (o : option A) (d : A) : A :=
  match o with Some a => a | None => d end.

Definition stage_path (s : StageNames) (d : option SourceDatasets)
           (filename : option string) : Path :=
  get_default_path (StageNames_value s)
                   (option_map SourceDatasets_value d) filename.

(** The check of a path option declared with [exists=True,
    file_okay=True, readable=True]; it is made on the default as well. *)
Definition check_path (param : string) (p : Path) : M unit :=
  let* t := get_tree in
  if negb (exists_ t p) then
    raise (BadParameter param ("Path '" ++ str p ++ "' does not exist."))
  else if negb (readable t p) then
    raise (BadParameter param ("Path '" ++ str p ++ "' is not readable."))
  else ret tt.

(** The config command is declared with [no_args_is_help=True]. *)
Definition no_args (c : Command) : bool :=
  match c with
  | Config false None None None None => true
  | _ => false
  end.

Definition show_help : M unit := fun w => (HelpShown, w).

(** What the command line library does with a parsed command line:
    defaults, checks, then the function. *)
Definition invoke (c : Command) : M unit :=
  match c with
  | ExtractAll i o clear ac =>
      extract_all (or_default i (stage_path download None None))
                  (or_default o (stage_path extract None None)) clear ac
  | ExtractSmb i o clear ac =>
      extract_smb (or_default i (stage_path download (Some smb) None))
                  (or_default o (stage_path extract (Some smb) None))
                  clear ac
  | ExtractRevexp i o clear =>
      extract_revexp
        (or_default i (stage_path download (Some revexp) None))
        (or_default o (stage_path extract (Some revexp) None)) clear
  | ExtractEmpl i o clear =>
      extract_empl (or_default i (stage_path download (Some empl) None))
                   (or_default o (stage_path extract (Some empl) None))
                   clear
  | AggregateAll i o =>
      aggregate_all (or_default i (stage_path extract None None))
                    (or_default o (stage_path aggregate None None))
  | AggregateSmb i o =>
      aggregate_smb (or_default i (stage_path extract (Some smb) None))
                    (or_default o (stage_path aggregate (Some smb) None))
  | AggregateRevexp i o f =>
      let f' := or_default f (stage_path aggregate (Some smb)
                                         (Some "agg.csv")) in
      check_path "--smb-data-file" f' ;;
      aggregate_revexp
        (or_default i (stage_path extract (Some revexp) None))
        (or_default o (stage_path aggregate (Some revexp) None)) f'
  | AggregateEmpl i o f =>
      let f' := or_default f (stage_path aggregate (Some smb)
                                         (Some "agg.csv")) in
      check_path "--smb-data-file" f' ;;
      aggregate_empl
        (or_default i (stage_path extract (Some empl) None))
        (or_default o (stage_path aggregate (Some empl) None)) f'
  | Config show chunksize num_workers storage ydisk_token =>
      if no_args c then show_help
      else config show (or_default chunksize 16%Z)
                  (or_default num_workers 1%Z)
                  (or_default storage local)
                  (or_default ydisk_token "")
  end.

(** One run of the program: the module body, then the command. *)
Definition program (d : AppDir) (c : Command) : M unit :=
  module_body d ;; invoke c.

(** A run in which the module is imported, the application directory
    being there or made: the command is reached. *)
Definition main (c : Command) : M unit :=
  import_module ;; invoke c.

(** The companion file of an aggregation command for one of the two
    kinds that have one: the option, or its default. *)
Definition companion_of (c : Command) : option Path :=
  match c with
  | AggregateRevexp _ _ f | AggregateEmpl _ _ f =>
      Some (or_default f (stage_path aggregate (Some smb) (Some "agg.csv")))
  | _ => None
  end.

Definition is_extract (c : Command) : bool :=
  match c with
  | ExtractAll _ _ _ _ | ExtractSmb _ _ _ _
  | ExtractRevexp _ _ _ | ExtractEmpl _ _ _ => true
  | _ => false
  end.

Definition is_extractor_call (c : Call) : bool :=
  match c with ExtractorCall _ _ _ _ _ => true | _ => false end.

(** The configuration file cannot be loaded. *)
Definition unloadable (cfg : ConfigFile) : bool :=
  match cfg with Holds _ => false | _ => true end.

(** The configuration file, when it can be loaded, holds an object. *)
Definition loads_dict_or_fails (cfg : ConfigFile) : bool :=
  match cfg with
  | Holds (JObj _) => true
  | Holds _ => false
  | _ => true
  end.

(** The test the extract commands make before they construct: remote
    storage and no token. *)
Definition ydisk_without_token (items : list (string * JValue)) : bool :=
  (match dict_get items "storage" with
   | JStr s => String.eqb s "ydisk"
   | _ => false
   end
   && match dict_get items "token" with
      | JNull => true
      | _ => false
      end)%bool.

(** The construction of the Extractor from the settings [items]. *)
Definition extractor_of (items : list (string * JValue)) : Call :=
  NewExtractor (dict_get items "storage")
               (dict_get items "num_workers")
               (dict_get items "chunksize")
               (dict_get items "token").

(** The dictionary [app_config] names, when it names one. *)
Definition config_dict (w : World) : option (list (string * JValue)) :=
  match app_config w with
  | SameAsDefault => Some (default_config w)
  | Loaded (JObj items) => Some items
  | _ => None
  end.

(** The world a process starts in. *)
Definition boot (t : Node) (cfg : ConfigFile) (url : string) : World :=
  mkWorld t cfg url [] Unbound [] [].

End Main.

(** ** The code filter of the extraction stage *)

Module CodeTree.

(** Modelled from the spec: the CodeTree of the extraction stage
    ([stages/extract.py]) is not among the sources. It is built from the
    list of filter codes given with the [ac] option; a filter is a group
    letter or a dotted numeric code, and the filters are stored by kind. *)
Inductive Kind : Type :=
| Group (letter : string)
| Dotted (segments : list string)
| Malformed.

(** The segments of a dotted text. *)
Fixpoint split_dots (s : string) : list string :=
  match s with
  | EmptyString => [""]
  | String c s' =>
      match split_dots s' with
      | seg :: rest =>
          if Ascii.eqb c "." then "" :: seg :: rest
          else String c seg :: rest
      | [] => [String c ""]
      end
  end.

Fixpoint all_digits (s : string) : bool :=
  match s with
  | EmptyString => true
  | String c s' => (Dates.is_digit c && all_digits s')%bool
  end.

(** A segment: one digit or more. *)
Definition is_segment (s : string) : bool :=
  match s with
  | EmptyString => false
  | _ => all_digits s
  end.

Definition is_upper (c : ascii) : bool :=
  ((65 <=? nat_of_ascii c)%nat && (nat_of_ascii c <=? 90)%nat)%bool.

Definition is_group_letter (s : string) : bool :=
  match s with
  | String c EmptyString => is_upper c
  | _ => false
  end.

Definition classify (s : string) : Kind :=
  if is_group_letter s then Group s
  else
    let segs := split_dots s in
    if forallb is_segment segs then Dotted segs else Malformed.

Record t : Type :=
  mk { enabled : bool;
       group_filters : list string;
       code_filters : list (list string) }.

Fixpoint groups_of (filters : list string) : list string :=
  match filters with
  | [] => []
  | f :: rest =>
      match classify f with
      | Group g => g :: groups_of rest
      | _ => groups_of rest
      end
  end.

Fixpoint codes_of (filters : list string) : list (list string) :=
  match filters with
  | [] => []
  | f :: rest =>
      match classify f with
      | Dotted segs => segs :: codes_of rest
      | _ => codes_of rest
      end
  end.

(** Modelled from the spec: the tree of a filter list; with no filter
    configured the filtering is off. *)
Definition build (filters : list string) : t :=
  {| enabled := negb (List.length filters =? 0)%nat;
     group_filters := groups_of filters;
     code_filters := codes_of filters |}.

(** The tree of the [ac] option as the command line passes it on: not
    given is [None]. *)
Definition of_option (ac : option (list string)) : t :=
  build (match ac with Some l => l | None => [] end).

(** The activity code of a record: the dotted code and, when the record
    has one, the group letter. *)
Record ActivityCode : Type :=
  mkCode { group : option string; code : string }.

(** A code cut down to its first [n] segments. *)
Definition truncate (n : nat) (segments : list string) : list string :=
  firstn n segments.

(** Modelled from the spec: [matches] holds when the group letter is a
    stored group filter, or the dotted code is a stored filter, or the
    dotted code cut to the length of a stored filter is that filter; a
    code that is not well formed matches nothing; without filters
    everything matches. *)
Definition matches (tr : t) (c : ActivityCode) : bool :=
  if negb (enabled tr) then true
  else
    (match group c with
     | Some g => existsb (String.eqb g) (group_filters tr)
     | None => false
     end
     ||
     match classify (code c) with
     | Dotted segs =>
         existsb (fun f => bool_decide (segs = f)) (code_filters tr)
         || existsb (fun f => bool_decide (truncate (List.length f) segs = f))
                    (code_filters tr)
     | _ => false
     end)%bool.

(** [f] is an ancestor prefix of [c]: [c] cut to the number of segments
    of [f] is [f]. *)
Definition ancestor_prefix (f : string) (c : string) : Prop :=
  truncate (List.length (split_dots f)) (split_dots c) = split_dots f.

(** A dotted code: every segment is a run of digits. *)
Definition well_formed (c : string) : bool :=
  forallb is_segment (split_dots c).

End CodeTree.

(** ** The aggregation stage *)

Module Aggregator.
Import Py Pathlib FS Run.

(** Modelled from the spec: the Aggregator ([stages/aggregate.py]) is
    not among the sources. A normalized row carries its identifier and
    its snapshot date. *)
Record Row : Type :=
  mkRow { ident : string;
          snapshot : Dates.Date;
          fields : list Spark.Cell }.

(** Modelled from the spec: one step of the fold over the input rows. A
    new identifier is inserted; a known one keeps its row unless the new
    row has a strictly later snapshot date. *)
Definition upsert (m : gmap string Row) (r : Row) : gmap string Row :=
  match m !! ident r with
  | None => <[ident r := r]> m
  | Some old =>
      if Dates.ltb (snapshot old) (snapshot r)
      then <[ident r := r]> m
      else m
  end.

(** Modelled from the spec: the key-to-row map of a sequence of rows. *)
Definition fold_rows (rows : list Row) : gmap string Row :=
  foldl upsert ∅ rows.

(** The row the map holds for [k] after the rows [rows]: none when no row
    has the identifier, else the first of the rows with the latest
    snapshot date among those with the identifier. *)
Definition first_latest (rows : list Row) (k : string)
           (o : option Row) : Prop :=
  match o with
  | None => forall x, In x rows -> ident x <> k
  | Some r =>
      ident r = k /\
      exists before after,
        rows = before ++ r :: after /\
        (forall x, In x before -> ident x = k ->
                   Dates.ltb (snapshot x) (snapshot r)
                   = true) /\
        (forall x, In x after -> ident x = k ->
                   Dates.ltb (snapshot r) (snapshot x)
                   = false)
  end.

(** Modelled from the spec: the companion of a run. The smb kind has
    none. For the revexp and the empl kind a companion file that is
    supplied is loaded first: its records when it is a file that can be
    read; when it is missing or cannot be read the run ends in the fatal
    configuration error, before any work. *)
Definition load_companion (mode : Main.SourceDatasets)
           (smb_data_file : Arg Path) : M (option (list Record_)) :=
  match mode, smb_data_file with
  | Main.smb, _ => ret None
  | _, NotPassed => ret None
  | _, Passed f =>
      let* t := get_tree in
      match resolve t f with
      | Some (File true recs) => ret (Some recs)
      | _ =>
          raise (ConfigurationError
                   ("Companion file " ++ str f
                      ++ " is missing or cannot be read"))
      end
  end.


(** Modelled from the spec: one aggregation run, [Aggregator.__call__],
    which is not among the sources, over the two steps of [SparkStage]
    that are: load the companion, read the chunk files of the source
    directory with [_read], work on the data frame ([steps]: the fold into
    the key-to-row map, the restriction to the identifiers of the
    companion, the ordering), write the result with [_write]. A source
    without chunk files, for which [_read] gives [None], yields an output
    file without rows. The errors of the source and of the destination are
    those of [_read] and of [_write]. *)
Definition call (steps : option (list Record_) -> Spark.DataFrame
                         -> Spark.DataFrame)
           (in_dir out_file : Path) (mode : Main.SourceDatasets)
           (smb_data_file : Arg Path) (sch : Spark.StructType) : M unit :=
  let* companion := load_companion mode smb_data_file in
  let* data := SparkStage._read in_dir sch in
  let result :=
    match data with
    | Some df => steps companion df
    | None => Spark.mkDataFrame sch []
    end in
  SparkStage._write (Some result) out_file.

End Aggregator.


(** ** Worlds and inputs to try the definitions on *)

Module Samples.
Import Py Pathlib FS Run.

Definition sch : Spark.StructType :=
  [("id", Spark.StringType); ("date", Spark.DateType)].

Definition world_of (t : Node) (cfg : ConfigFile) : World :=
  Main.boot t cfg "http://localhost:4040".

(** The application directory of a user, and the error of making it
    where a file of that name stands. *)
Definition app_dir : Path := ["home"; "user"; ".config"; "ru_smb_companies"].

Definition no_app_dir : Main.AppDir := Main.NotMade (FileExistsError app_dir).

(** An extraction directory without a chunk file. *)
Definition empty_source : Node :=
  Dir true [("extract", Dir true [("smb", Dir true [])])].

Definition in_smb : Path := ["extract"; "smb"].
Definition out_smb : Path := ["aggregate"; "smb"; "agg.csv"].

(** An aggregate that is a file named agg.csv. *)
Definition with_aggregate : Node :=
  Dir true
      [("aggregate",
        Dir true
            [("smb",
              Dir true [("agg.csv",
                         File true [["id"; "date"];
                                    ["1"; "10.08.2021"]])])])].

(** One chunk whose second record has a date that is no date. *)
Definition with_chunk : Node :=
  Dir true
      [("extract",
        Dir true
            [("smb",
              Dir true [("data-1.csv",
                         File true [["id"; "date"];
                                    ["1"; "10.08.2021"];
                                    ["2"; "unknown"]])])])].

(** One chunk whose record names the 31st of February. *)
Definition with_impossible_day : Node :=
  Dir true
      [("extract",
        Dir true
            [("smb",
              Dir true [("data-1.csv",
                         File true [["id"; "date"];
                                    ["1"; "31.02.2021"]])])])].



(** A frame with a null, an empty text and a date. *)
Definition frame : Spark.DataFrame :=
  Spark.mkDataFrame
    [("id", Spark.StringType); ("name", Spark.StringType);
     ("date", Spark.DateType)]
    [[Some (Spark.VStr "1"); None;
      Some (Spark.VDate (Dates.mkDate 2021 8 10))];
     [Some (Spark.VStr "2"); Some (Spark.VStr ""); None]].

(** Three rows of one identifier: an older one, and two of the same later
    date. *)
Definition row_2021 : Aggregator.Row :=
  Aggregator.mkRow "7701" (Dates.mkDate 2021 1 1) [Some (Spark.VStr "old")].

Definition row_2022 : Aggregator.Row :=
  Aggregator.mkRow "7701" (Dates.mkDate 2022 1 1) [Some (Spark.VStr "new")].

Definition row_2022_again : Aggregator.Row :=
  Aggregator.mkRow "7701" (Dates.mkDate 2022 1 1)
                   [Some (Spark.VStr "other")].

End Samples.

(** ** The rest of __main__.py: download, georeference, panelize, process *)

Module Stages.
Import Py Pathlib FS Run.

(** Calls into the stage classes the commands above do not use. A call
    with keywords and a call by position are kept apart: the order of the
    parameters is the callee's. *)
Inductive StageCall : Type :=
| NewDownloader (storage token : JValue)
| DownloaderCallKw (download_dir source_dataset : string)
| DownloaderCallPos (first second : string)
| NewGeoreferencer
| GeoreferencerCall (first second : string)
| NewPanelizer
| PanelizerCall (first second third fourth : string).

(** The world together with the calls into these classes. *)
Definition State : Type := (World * list StageCall)%type.

Definition S (A : Type) : Type := State -> Outcome A * State.

Definition ret {A} (a : A) : S A := fun st => (Return a, st).

Definition bind {A B} (c : S A) (k : A -> S B) : S B :=
  fun st =>
    match c st with
    | (Return a, st') => k a st'
    | (Raise e, st') => (Raise e, st')
    | (HelpShown, st') => (HelpShown, st')
    end.

(** A statement of the first part, run on the world of the state. *)
Definition lift {A} (m : M A) : S A :=
  fun st =>
    match m (fst st) with
    | (o, w') => (o, (w', snd st))
    end.

Definition stage_call (c : StageCall) : S unit :=
  fun st => (Return tt, (fst st, snd st ++ [c])).

Fixpoint for_each {A} (l : list A) (body : A -> S unit) : S unit :=
  match l with
  | [] => ret tt
  | x :: rest => bind (body x) (fun _ => for_each rest body)
  end.

(** Evaluate the name [nm] inside a function whose body assigns the names
    [assigned], of which [bound] have a value by now. A name the body
    assigns is local: read before its assignment it raises
    [UnboundLocalError], which is a [NameError]. *)
Definition local_name (assigned : list string)
           (bound : list (string * Main.PyVal)) (nm : string)
  : M Main.PyVal :=
  match assoc nm bound with
  | Some v => Run.ret v
  | None =>
      if Main.mem nm assigned then Run.raise (NameError nm)
      else Main.name_ [] nm
  end.

(** [get_downloader(app_config)] *)
Definition get_downloader : S unit :=
  bind (lift (Main.app_config_get "storage")) (fun storage =>
  bind (lift (Main.app_config_get "token")) (fun token =>
  stage_call (NewDownloader storage token))).

(** [download_all]: the dictionary of arguments is built from
    [source_dataset] before the loop that assigns it. *)
Definition download_all (download_dir : Path) : S unit :=
  bind get_downloader (fun _ =>
  bind (lift (local_name ["d"; "args"; "source_dataset"]
                         [("download_dir", Main.PvPath download_dir);
                          ("d", Main.PvGlobal "d")]
                         "source_dataset")) (fun sd =>
  let dir := str (div download_dir (Main.py_str sd)) in
  for_each Main.SourceDatasets_members
    (fun source_dataset =>
       stage_call
         (DownloaderCallKw dir (Main.SourceDatasets_value source_dataset))))).

Definition download_one (d : Main.SourceDatasets) (download_dir : Path)
  : S unit :=
  bind get_downloader (fun _ =>
  stage_call (DownloaderCallPos (Main.SourceDatasets_value d)
                                (str download_dir))).

Definition download_smb : Path -> S unit := download_one Main.smb.
Definition download_revexp : Path -> S unit := download_one Main.revexp.
Definition download_empl : Path -> S unit := download_one Main.empl.

(** [georeference] *)
Definition georeference (in_file out_file : Path) : S unit :=
  bind (stage_call NewGeoreferencer) (fun _ =>
  stage_call (GeoreferencerCall (str in_file) (str out_file))).

(** [panelize] *)
Definition panelize (smb_file out_file revexp_file empl_file : Path)
  : S unit :=
  bind (stage_call NewPanelizer) (fun _ =>
  stage_call (PanelizerCall (str smb_file) (str out_file)
                            (str revexp_file) (str empl_file))).

(** The defaults of the parameters, as the signatures compute them. The
    default of the output of [panelize] passes the file name in the place
    of the dataset. *)
Definition default_download_dir : Path :=
  Main.get_default_path (Main.StageNames_value Main.download) None None.

Definition default_extract_dir : Path :=
  Main.get_default_path (Main.StageNames_value Main.extract) None None.

Definition default_aggregate_dir : Path :=
  Main.get_default_path (Main.StageNames_value Main.aggregate) None None.

Definition default_aggregate (d : Main.SourceDatasets) : Path :=
  Main.get_default_path (Main.StageNames_value Main.aggregate)
                        (Some (Main.SourceDatasets_value d))
                        (Some "agg.csv").

Definition default_georeferenced : Path :=
  Main.get_default_path (Main.StageNames_value Main.georeference)
                        (Some (Main.SourceDatasets_value Main.smb))
                        (Some "georeferenced.csv").

Definition default_panel : Path :=
  Main.get_default_path (Main.StageNames_value Main.panelize)
                        (Some "panel.csv") None.

(** [process]: the stage functions are called as plain functions, with
    the defaults of their parameters and without the checks of the command
    line. *)
Definition process (download : bool) (ac : option (list string)) : S unit :=
  bind (if download then download_all default_download_dir else ret tt)
       (fun _ =>
  bind (lift (Main.extract_all default_download_dir default_extract_dir
                               false ac)) (fun _ =>
  bind (lift (Main.aggregate_all default_extract_dir default_aggregate_dir))
       (fun _ =>
  bind (georeference (default_aggregate Main.smb) default_georeferenced)
       (fun _ =>
  panelize default_georeferenced default_panel
           (default_aggregate Main.revexp) (default_aggregate Main.empl))))).

(** A parsed command line of one of these commands. *)
Inductive Command : Type :=
| DownloadAll (download_dir : option Path)
| DownloadSmb (download_dir : option Path)
| DownloadRevexp (download_dir : option Path)
| DownloadEmpl (download_dir : option Path)
| Georeference (in_file out_file : option Path)
| Panelize (smb_file out_file revexp_file empl_file : option Path)
| Process (download : bool) (ac : option (list string)).

Definition default_download (d : Main.SourceDatasets) : Path :=
  Main.get_default_path (Main.StageNames_value Main.download)
                        (Some (Main.SourceDatasets_value d)) None.

(** The paths a command declares with [exists=True, readable=True], the
    option's name first, in the order of the declaration. *)
Definition checked_paths (c : Command) : list (string * Path) :=
  match c with
  | Georeference i _ =>
      [("--in-file", Main.or_default i (default_aggregate Main.smb))]
  | Panelize s _ r e =>
      [("--smb-file", Main.or_default s default_georeferenced);
       ("--revexp-file", Main.or_default r (default_aggregate Main.revexp));
       ("--empl-file", Main.or_default e (default_aggregate Main.empl))]
  | _ => []
  end.

Definition run_command (c : Command) : S unit :=
  match c with
  | DownloadAll d => download_all (Main.or_default d default_download_dir)
  | DownloadSmb d =>
      download_smb (Main.or_default d (default_download Main.smb))
  | DownloadRevexp d =>
      download_revexp (Main.or_default d (default_download Main.revexp))
  | DownloadEmpl d =>
      download_empl (Main.or_default d (default_download Main.empl))
  | Georeference i o =>
      georeference (Main.or_default i (default_aggregate Main.smb))
                   (Main.or_default o default_georeferenced)
  | Panelize s o r e =>
      panelize (Main.or_default s default_georeferenced)
               (Main.or_default o default_panel)
               (Main.or_default r (default_aggregate Main.revexp))
               (Main.or_default e (default_aggregate Main.empl))
  | Process download ac => process download ac
  end.

(** What the command line library does: the checks, then the function. *)
Definition invoke (c : Command) : S unit :=
  bind (for_each (checked_paths c)
                 (fun pp => lift (Main.check_path (fst pp) (snd pp))))
       (fun _ => run_command c).

(** One run of the program with one of these commands, the module
    being imported as for [Main.main]. *)
Definition main (c : Command) : S unit :=
  bind (lift Main.import_module) (fun _ => invoke c).

(** The calls of a state into the Extractor and the Aggregator. *)
Definition world_calls (st : State) : list Call := calls (fst st).

End Stages.

(** ** Lines and states the properties speak of *)

Module Shown.
Import Py Pathlib FS Run.

(** The line [config --show] prints for one setting. *)
Definition line (kv : string * JValue) : string :=
  fst kv ++ " " ++ Main.py_str_json (snd kv).

(** The world after the lines [lines] on the standard output. *)
Definition says_all (lines : list string) (w : World) : World :=
  mkWorld (tree w) (config_file w) (ui_web_url w) (default_config w)
          (app_config w) (stdout w ++ lines) (calls w).






(** A setting that is a text, a number, a truth value or null. *)
Definition scalar (v : JValue) : bool :=
  match v with
  | JArr _ | JObj _ => false
  | _ => true
  end.

(** The value the option [--ydisk-token] has in the function. *)
Definition token_of (ydisk_token : option string) : JValue :=
  JStr (Main.or_default ydisk_token "").

End Shown.

(** * Properties *)

Import Py Pathlib FS Run.

(** Unfold the plumbing of [M], and nothing else. *)
Ltac run_step :=
  cbv beta iota delta
      [bind ret raise print call get_tree set_tree get_world lift
       set_config_file set_default_config set_app_config].

(** ** Suffixes *)

Lemma rfind_get (c : ascii) (s : string) (i : nat) :
  rfind c s = Some i -> String.get i s = Some c.
Proof.
  revert i. induction s as [|a s IH]; intros i H; simpl in H; [discriminate|].
  destruct (rfind c s) as [j|] eqn:E.
  - injection H as <-. simpl. now apply IH.
  - destruct (Ascii.eqb a c) eqn:Eac; [|discriminate].
    injection H as <-. simpl. apply Ascii.eqb_eq in Eac. now subst.
Qed.

Lemma substring_head (c : ascii) (s : string) (i n : nat) :
  String.get i s = Some c ->
  exists t, String.substring i (S n) s = String c t.
Proof.
  revert i. induction s as [|a s IH]; intros i H.
  - destruct i; discriminate.
  - destruct i as [|i]; simpl in *.
    + injection H as ->. eauto.
    + now apply IH.
Qed.

(** A suffix is empty or begins with the dot. *)
Lemma suffix_of_name_shape (nm : string) :
  suffix_of_name nm = "" \/ exists t, suffix_of_name nm = String "." t.
Proof.
  unfold suffix_of_name.
  destruct (rfind "." nm) as [i|] eqn:E; [|now left].
  destruct ((0 <? i)%nat && (i <? String.length nm - 1)%nat)%bool eqn:B;
    [|now left].
  right. apply andb_prop in B as [_ B]. apply Nat.ltb_lt in B.
  destruct (String.length nm - i)%nat as [|n] eqn:L; [lia|].
  eapply substring_head, rfind_get, E.
Qed.

Lemma suffix_never_csv (p : Path) : String.eqb (suffix p) "csv" = false.
Proof.
  apply String.eqb_neq. unfold suffix.
  destruct (suffix_of_name_shape (name p)) as [H | [t H]];
    rewrite H; discriminate.
Qed.

(** ** Globbing *)

Lemma glob_children (t : Node) (p : Path) (pat : string) (f : Path) :
  In f (glob t p pat) ->
  is_dir t p = true /\
  exists nm, f = div p nm /\ fnmatch pat nm = true.
Proof.
  unfold glob, is_dir.
  destruct (resolve t p) as [[r recs | r entries]|]; simpl; try tauto.
  destruct r; simpl; try tauto.
  intros H. apply in_map_iff in H as [[nm n] [<- H]].
  apply filter_In in H as [_ H]. simpl in *. eauto.
Qed.

(** ** Reading *)

Lemma session_read_csv_world (sch : Spark.StructType) (files : list Path)
      (w : World) :
  snd (SparkStage.session_read_csv sch files w) = called (CsvRead files) w.
Proof.
  unfold SparkStage.session_read_csv. run_step.
  change (tree (called (CsvRead files) w)) with (tree w).
  destruct (SparkStage.load_all (tree w) files); reflexivity.
Qed.

Lemma read_without_input (w : World) (in_path : Path)
      (sch : Spark.StructType) :
  exists_ (tree w) in_path = true ->
  SparkStage.input_files (tree w) in_path = [] ->
  SparkStage._read in_path sch w
  = (Return None, says SparkStage.no_csv_notice w).
Proof.
  intros Hex Hin. unfold SparkStage._read. run_step.
  rewrite Hex, Hin. reflexivity.
Qed.

Lemma input_files_of_file (t : Node) (in_path : Path) :
  is_dir t in_path = false -> SparkStage.input_files t in_path = [].
Proof.
  intros H. unfold SparkStage.input_files. now rewrite H, suffix_never_csv.
Qed.

Lemma read_calls (w : World) (in_path : Path) (sch : Spark.StructType) :
  calls (snd (SparkStage._read in_path sch w)) = calls w \/
  (SparkStage.input_files (tree w) in_path <> [] /\
   calls (snd (SparkStage._read in_path sch w))
   = calls w ++ [CsvRead (SparkStage.input_files (tree w) in_path)]).
Proof.
  unfold SparkStage._read. run_step.
  destruct (exists_ (tree w) in_path); [|now left].
  cbv beta iota zeta delta [negb].
  destruct (SparkStage.input_files (tree w) in_path) as [|f fs] eqn:E;
    [now left|].
  right. split; [discriminate|].
  cbv beta iota delta [List.length Nat.eqb].
  pose proof (session_read_csv_world sch (f :: fs) w) as Hw.
  destruct (SparkStage.session_read_csv sch (f :: fs) w) as [[d|e|] w'];
    simpl in Hw; subst w'; reflexivity.
Qed.

(** C7: an input path that exists and is not a directory is never read:
    its suffix, which begins with a dot when it is not empty, is compared
    with the text csv, so [_read] prints the notice and returns [None]
    without a call to the reader; whenever the reader is called, the input
    is a directory and the files are its children named data-*.csv. *)
Theorem read_takes_directories_only
        (w : World) (in_path : Path) (sch : Spark.StructType) :
  String.eqb (suffix in_path) "csv" = false /\
  (exists_ (tree w) in_path = true ->
   is_dir (tree w) in_path = false ->
   SparkStage._read in_path sch w
   = (Return None, says SparkStage.no_csv_notice w)) /\
  (forall files,
      In (CsvRead files) (calls (snd (SparkStage._read in_path sch w))) ->
      ~ In (CsvRead files) (calls w) ->
      is_dir (tree w) in_path = true /\
      files <> [] /\
      forall f, In f files ->
                exists nm, f = div in_path nm /\
                           fnmatch "data-*.csv" nm = true).
Proof.
  split; [apply suffix_never_csv|]. split.
  - intros Hex Hdir. apply read_without_input; [assumption|].
    now apply input_files_of_file.
  - intros files Hin Hnot.
    destruct (read_calls w in_path sch) as [H | [Hne H]];
      rewrite H in Hin; [contradiction|].
    apply in_app_or in Hin as [Hin | [Hin | []]]; [contradiction|].
    injection Hin as <-.
    destruct (is_dir (tree w) in_path) eqn:Hd.
    + split; [reflexivity|]. split; [assumption|].
      intros f Hf. unfold SparkStage.input_files in Hf. rewrite Hd in Hf.
      now apply glob_children in Hf as [_ Hf].
    + now rewrite input_files_of_file in Hne.
Qed.

Lemma read_takes_directories_only_witness :
  (exists_ Samples.with_aggregate Samples.out_smb = true /\
   is_dir Samples.with_aggregate Samples.out_smb = false /\
   SparkStage._read Samples.out_smb Samples.sch
                    (Samples.world_of Samples.with_aggregate Absent)
   = (Return None,
      says SparkStage.no_csv_notice
           (Samples.world_of Samples.with_aggregate Absent))) /\
  is_dir Samples.with_chunk Samples.in_smb = true /\
  exists nm,
    ["extract"; "smb"; "data-1.csv"] = div Samples.in_smb nm /\
    fnmatch "data-*.csv" nm = true.
Proof.
  split; [|split].
  - split; [reflexivity|]. split; [reflexivity|].
    apply (read_takes_directories_only
             (Samples.world_of Samples.with_aggregate Absent)
             Samples.out_smb Samples.sch); reflexivity.
  - apply (proj2 (proj2 (read_takes_directories_only
                           (Samples.world_of Samples.with_chunk Absent)
                           Samples.in_smb Samples.sch))
                 [["extract"; "smb"; "data-1.csv"]]).
    + left. reflexivity.
    + intros [].
  - apply (proj2 (proj2 (read_takes_directories_only
                           (Samples.world_of Samples.with_chunk Absent)
                           Samples.in_smb Samples.sch))
                 [["extract"; "smb"; "data-1.csv"]]).
    + left. reflexivity.
    + intros [].
    + left. reflexivity.
Defined.

(** ** Dates on the way in *)

Lemma convert_records_permissive (sch : Spark.StructType)
      (recs : list Record_) :
  Spark.convert_records SparkStage.read_options sch recs
  = Return (List.map (Spark.permissive_row SparkStage.read_options sch) recs).
Proof.
  induction recs as [|r recs IH]; [reflexivity|].
  cbn [Spark.convert_records List.map]. rewrite IH.
  change (Spark.r_mode SparkStage.read_options) with Spark.PERMISSIVE.
  now destruct (Spark.malformed SparkStage.read_options sch r).
Qed.

Lemma convert_fields_nth (o : Spark.ReadOptions) (sch : Spark.StructType)
      (rec : Record_) (i : nat) (nm : string) (ty : Spark.DataType)
      (raw : string) :
  nth_error sch i = Some (nm, ty) ->
  nth_error rec i = Some raw ->
  nth_error (Spark.convert_fields o sch rec) i
  = Some (Spark.convert_cell o ty raw).
Proof.
  revert rec i. induction sch as [|[n t] sch IH]; intros rec i Hs Hr.
  - destruct i; discriminate.
  - destruct rec as [|c rec]; [destruct i; discriminate|].
    destruct i as [|i]; simpl in *.
    + now injection Hs as -> ->; injection Hr as ->.
    + now apply IH.
Qed.

Lemma read_csv_permissive (sch : Spark.StructType)
      (files : list (list Record_)) :
  Spark.read_csv SparkStage.read_options sch files
  = Return
      (Spark.mkDataFrame sch
         (List.map (Spark.permissive_row SparkStage.read_options sch)
                   (List.concat (List.map (@List.tl Record_) files)))).
Proof.
  unfold Spark.read_csv. now rewrite convert_records_permissive.
Qed.




Lemma append_nil_l (b : string) : ("" ++ b)%string = b.
Proof. reflexivity. Qed.

Lemma append_cons (c : ascii) (a b : string) :
  (String c a ++ b)%string = String c (a ++ b)%string.
Proof. reflexivity. Qed.


















(** A text that names a day that is not in the calendar is another
    matter: the parser of Spark 2 reads the 31st of February, so the cell
    fails when it is computed. [_read], which only counts, returns the
    frame and prints the number of rows; [_write] raises. *)
Example impossible_day_fails_when_written :
  let w := Samples.world_of Samples.with_impossible_day Absent in
  let e := SparkUpgradeException "31.02.2021" in
  let df := Spark.mkDataFrame
              Samples.sch
              [[Some (Spark.VStr "1"); Some (Spark.VRaises e)]] in
  fst (SparkStage._read Samples.in_smb Samples.sch w) = Return (Some df) /\
  stdout (snd (SparkStage._read Samples.in_smb Samples.sch w))
  = ["Source CSV contains 1 rows"] /\
  SparkStage._write (Some df) Samples.out_smb w = (Raise e, w).
Proof. repeat split. Qed.

(** ** Nulls on the way out *)

Lemma assoc_put_eq {A} (k : string) (v : A) (l : list (string * A)) :
  assoc k (put k v l) = Some v.
Proof.
  induction l as [|[k' v'] l IH]; simpl.
  - now rewrite String.eqb_refl.
  - destruct (String.eqb k k') eqn:E; simpl; now rewrite ?String.eqb_refl, ?E.
Qed.

Lemma resolve_place (p : Path) (t t' n : Node) :
  place t p n = Some t' -> resolve t' p = Some n.
Proof.
  revert t t'. induction p as [|c p IH]; intros t t' H; simpl in H.
  - now injection H as ->.
  - destruct t as [|r entries]; [discriminate|].
    destruct p as [|c' p].
    + injection H as <-. simpl. now rewrite assoc_put_eq.
    + destruct (assoc c entries) as [child|]; [|discriminate].
      destruct (place child (c' :: p) n) as [child'|] eqn:E; [|discriminate].
      injection H as <-.
      change (resolve (Dir r (put c child' entries)) (c :: c' :: p))
        with (match assoc c (put c child' entries) with
              | Some x => resolve x (c' :: p)
              | None => None
              end).
      rewrite assoc_put_eq. eapply IH, E.
Qed.

Lemma render_from_nth (o : Spark.WriteOptions) (row : list Spark.Cell)
      (col i : nat) :
  nth_error (Spark.render_from o col row) i
  = option_map (Spark.render_cell o (col + i)) (nth_error row i).
Proof.
  revert col i. induction row as [|c row IH]; intros col i.
  - now destruct i.
  - destruct i as [|i]; cbn [Spark.render_from nth_error option_map].
    + now rewrite Nat.add_0_r.
    + rewrite IH. now rewrite Nat.add_succ_r.
Qed.

Lemma render_row_nth (o : Spark.WriteOptions) (row : list Spark.Cell)
      (i : nat) (c : Spark.Cell) :
  nth_error row i = Some c ->
  nth_error (Spark.render_row o row) i = Some (Spark.render_cell o i c).
Proof.
  intros H. unfold Spark.render_row. now rewrite render_from_nth, H.
Qed.

Lemma render_row_null (o : Spark.WriteOptions) (row : list Spark.Cell)
      (i : nat) :
  nth_error row i = Some None ->
  nth_error (Spark.render_row o row) i = Some (Spark.w_nullValue o).
Proof. intros H. now rewrite (render_row_nth o row i None H). Qed.

Lemma render_row_empty_text (o : Spark.WriteOptions)
      (row : list Spark.Cell) (i : nat) :
  nth_error row i = Some (Some (Spark.VStr "")) ->
  nth_error (Spark.render_row o row) i = Some (Spark.w_emptyValue o).
Proof.
  intros H. now rewrite (render_row_nth o row i _ H).
Qed.

Lemma render_from_length (o : Spark.WriteOptions) (row : list Spark.Cell)
      (col : nat) :
  List.length (Spark.render_from o col row) = List.length row.
Proof.
  revert col. induction row as [|c row IH]; intros col; [reflexivity|].
  cbn [Spark.render_from List.length]. now rewrite IH.
Qed.

Lemma part_of_the_job (recs : list Record_) :
  List.hd_error
    (List.filter (fun e : string * list Record_ => fnmatch "*.csv" (fst e))
                 [("_SUCCESS", []); ("part-00000.csv", recs)])
  = Some ("part-00000.csv", recs).
Proof. reflexivity. Qed.

(** The steps of [_write] on a frame: the job, the parent directories,
    the move of the part file. *)
Lemma write_steps (df : Spark.DataFrame) (out_file : Path) (w : World) :
  SparkStage._write (Some df) out_file w
  = match Spark.first_failure df with
    | Some e => (Raise e, w)
    | None =>
        match mkdir_p (tree w) (parent out_file) with
        | None =>
            (Raise (SparkStage.mkdir_error (tree w) (parent out_file)), w)
        | Some t' =>
            SparkStage.move
              "part-00000.csv"
              (Spark.render_header SparkStage.write_options (Spark.schema df)
               :: List.map (Spark.render_row SparkStage.write_options)
                           (Spark.rows df))
              out_file
              (mkWorld t' (config_file w) (ui_web_url w) (default_config w)
                       (app_config w) (stdout w) (calls w))
        end
    end.
Proof.
  unfold SparkStage._write, Spark.write_csv. run_step.
  destruct (Spark.first_failure df); [reflexivity|].
  rewrite part_of_the_job.
  now destruct (mkdir_p (tree w) (parent out_file)).
Qed.

(** C6: [_write] sets the null value NA. In every row it writes, a null
    cell is the text NA and a cell that holds the empty text is the text
    of two quotes, so the two can be told apart and neither is the empty
    text; and so it is in the file [_write] leaves: one record for each
    row of the frame, after the header, cell for cell. *)
Theorem missing_values_written_as_NA :
  Spark.w_nullValue SparkStage.write_options = "NA" /\
  (forall row i,
      nth_error row i = Some None ->
      nth_error (Spark.render_row SparkStage.write_options row) i
      = Some "NA") /\
  (forall row i,
      nth_error row i = Some (Some (Spark.VStr "")) ->
      nth_error (Spark.render_row SparkStage.write_options row) i
      = Some (String Spark.dquote (String Spark.dquote ""))) /\
  (forall row i j,
      nth_error row i = Some None ->
      nth_error row j = Some (Some (Spark.VStr "")) ->
      nth_error (Spark.render_row SparkStage.write_options row) i
      <> nth_error (Spark.render_row SparkStage.write_options row) j) /\
  (forall df out_file w w',
      SparkStage._write (Some df) out_file w = (Return tt, w') ->
      exists dst header body,
        (dst = out_file \/ exists nm, dst = div out_file nm) /\
        resolve (tree w') dst = Some (File true (header :: body)) /\
        List.length body = Spark.count df /\
        forall k row,
          nth_error (Spark.rows df) k = Some row ->
          exists rec,
            nth_error body k = Some rec /\
            List.length rec = List.length row /\
            forall i,
              (nth_error row i = Some None ->
               nth_error rec i = Some "NA") /\
              (nth_error row i = Some (Some (Spark.VStr "")) ->
               nth_error rec i
               = Some (String Spark.dquote (String Spark.dquote "")))).
Proof.
  split; [reflexivity|].
  split; [intros row i H; now apply render_row_null|].
  split; [intros row i H; now apply render_row_empty_text|].
  split.
  { intros row i j Hi Hj.
    rewrite (render_row_null _ _ _ Hi), (render_row_empty_text _ _ _ Hj).
    discriminate. }
  intros df out_file w w'. rewrite write_steps.
  destruct (Spark.first_failure df); [discriminate|].
  destruct (mkdir_p (tree w) (parent out_file)) as [t'|]; [|discriminate].
  unfold SparkStage.move. run_step. cbn [tree].
  set (dst := if is_dir t' out_file then div out_file "part-00000.csv"
              else out_file).
  destruct (is_dir t' out_file && exists_ t' dst)%bool; [discriminate|].
  destruct (place t' dst _) as [t''|] eqn:E; [|discriminate].
  intros H. injection H as <-. exists dst. eexists _, _. split; [|split].
  - subst dst. destruct (is_dir t' out_file); eauto.
  - cbn [tree]. eapply resolve_place, E.
  - split; [apply length_map|]. intros k row Hk.
    exists (Spark.render_row SparkStage.write_options row).
    split; [now rewrite nth_error_map, Hk|].
    split; [apply render_from_length|]. intros i. split; intros Hi.
    + now apply render_row_null.
    + now apply render_row_empty_text.
Qed.

Lemma missing_values_written_as_NA_witness :
  nth_error (Spark.render_row SparkStage.write_options
                              [Some (Spark.VStr "2"); Some (Spark.VStr "");
                               None]) 2
  = Some "NA" /\
  nth_error (Spark.render_row SparkStage.write_options
                              [Some (Spark.VStr "2"); Some (Spark.VStr "");
                               None]) 1
  = Some (String Spark.dquote (String Spark.dquote "")) /\
  exists dst header body,
    resolve
      (tree (snd (SparkStage._write
                    (Some Samples.frame) Samples.out_smb
                    (Samples.world_of Samples.empty_source Absent)))) dst
    = Some (File true (header :: body)) /\
    List.length body = 2.
Proof.
  split; [|split].
  - apply (proj1 (proj2 missing_values_written_as_NA)); reflexivity.
  - apply (proj1 (proj2 (proj2 missing_values_written_as_NA))); reflexivity.
  - destruct (proj2 (proj2 (proj2 (proj2 missing_values_written_as_NA)))
                    Samples.frame Samples.out_smb
                    (Samples.world_of Samples.empty_source Absent)
                    _ eq_refl)
      as (dst & header & body & _ & Hr & Hl & _).
    exists dst, header, body. split; [exact Hr | exact Hl].
Defined.

(** ** The module body *)

Lemma import_module_frame (w : World) :
  fst (Main.import_module w) = Return tt /\
  tree (snd (Main.import_module w)) = tree w /\
  config_file (snd (Main.import_module w)) = config_file w /\
  calls (snd (Main.import_module w)) = calls w /\
  default_config (snd (Main.import_module w)) = Main.default_config_literal.
Proof.
  unfold Main.import_module, Main.module_body, Main.make_app_dir,
    Main.load_app_config. run_step. cbn [config_file].
  destruct (config_file w); repeat split; reflexivity.
Qed.

Lemma import_module_defaults (w : World) :
  Main.unloadable (config_file w) = true ->
  Main.import_module w
  = (Return tt,
     mkWorld (tree w) (config_file w) (ui_web_url w)
             Main.default_config_literal SameAsDefault
             (stdout w ++ [Main.failed_to_load]) (calls w)).
Proof.
  unfold Main.import_module, Main.module_body, Main.make_app_dir,
    Main.load_app_config. run_step. cbn [config_file].
  destruct (config_file w); [reflexivity.. | discriminate].
Qed.

Lemma import_module_loaded (w : World) (v : JValue) :
  config_file w = Holds v ->
  Main.import_module w
  = (Return tt,
     mkWorld (tree w) (config_file w) (ui_web_url w)
             Main.default_config_literal (Loaded v) (stdout w) (calls w)).
Proof.
  intros H. unfold Main.import_module, Main.module_body, Main.make_app_dir,
    Main.load_app_config. run_step. cbn [config_file].
  now rewrite H.
Qed.

Lemma main_unfold (c : Main.Command) (w : World) :
  Main.main c w = Main.invoke c (snd (Main.import_module w)).
Proof.
  unfold Main.main, bind.
  destruct (import_module_frame w) as [H _].
  destruct (Main.import_module w) as [o w']. simpl in *. now subst o.
Qed.

(** ** The companion file of an aggregation *)

Lemma check_path_refuses (param : string) (p : Path) (w : World) :
  exists_ (tree w) p = false \/ readable (tree w) p = false ->
  exists msg, Main.check_path param p w = (Raise (BadParameter param msg), w).
Proof.
  intros H. unfold Main.check_path. run_step.
  destruct (exists_ (tree w) p) eqn:E; cbn [negb]; [|eauto].
  destruct H as [H | H]; [discriminate|]. rewrite H. cbn [negb]. eauto.
Qed.

Lemma invoke_refuses (c : Main.Command) (f : Path) (w : World) :
  Main.companion_of c = Some f ->
  exists_ (tree w) f = false \/ readable (tree w) f = false ->
  exists msg,
    Main.invoke c w = (Raise (BadParameter "--smb-data-file" msg), w).
Proof.
  intros Hc Hf.
  destruct (check_path_refuses "--smb-data-file" f w Hf) as [msg Hm].
  exists msg.
  destruct c; try discriminate; unfold Main.companion_of in Hc;
    unfold Main.invoke, bind; cbv zeta;
    match type of Hc with
    | Some ?x = _ => replace x with f by congruence
    end;
    rewrite Hm; reflexivity.
Qed.

(** ** The aggregate smb command *)

(** C9: whatever its options, the aggregate smb command raises the
    [NameError] of [out_file] once the Aggregator is made and before it is
    called: the one call on record is the construction, and the data tree
    is as it was. *)
Theorem aggregate_smb_raises_name_error
        (in_dir out_dir : option Path) (w : World) :
  fst (Main.main (Main.AggregateSmb in_dir out_dir) w)
  = Raise (NameError "out_file") /\
  calls (snd (Main.main (Main.AggregateSmb in_dir out_dir) w))
  = calls w ++ [NewAggregator] /\
  tree (snd (Main.main (Main.AggregateSmb in_dir out_dir) w)) = tree w.
Proof.
  rewrite main_unfold.
  destruct (import_module_frame w) as (_ & Ht & _ & Hcalls & _).
  rewrite <- Ht, <- Hcalls. repeat split.
Qed.

(** ** The extract commands *)

Lemma app_config_get_dict (w : World) (items : list (string * JValue))
      (key : string) :
  Main.config_dict w = Some items ->
  Main.app_config_get key w = (Return (Main.dict_get items key), w).
Proof.
  unfold Main.config_dict, Main.app_config_get, Main.read_app_config. run_step.
  destruct (app_config w) as [| |[]]; try discriminate;
    now injection 1 as ->.
Qed.

Lemma make_extractor_calls (w : World) (items : list (string * JValue)) :
  Main.config_dict w = Some items ->
  Main.ydisk_without_token items = false ->
  Main.make_extractor w = (Return tt, called (Main.extractor_of items) w).
Proof.
  intros Hd Hy. unfold Main.make_extractor, bind.
  rewrite !(app_config_get_dict w items _ Hd).
  unfold Main.ydisk_without_token in Hy. rewrite Hy. reflexivity.
Qed.

Lemma extract_calls (c : Main.Command) (w : World)
      (items : list (string * JValue)) :
  Main.is_extract c = true ->
  Main.config_dict w = Some items ->
  Main.ydisk_without_token items = false ->
  fst (Main.invoke c w) = Return tt /\
  exists rest,
    calls (snd (Main.invoke c w)) = calls w ++ Main.extractor_of items :: rest /\
    forallb Main.is_extractor_call rest = true.
Proof.
  intros Hc Hd Hy.
  pose proof (make_extractor_calls w items Hd Hy) as Hm.
  destruct c; try discriminate;
    unfold Main.invoke, Main.extract_all, Main.extract_smb,
      Main.extract_revexp, Main.extract_empl, bind;
    rewrite Hm; (split; [reflexivity|]); eexists;
    cbn -[Pathlib.str Main.extractor_of]; rewrite <- ?app_assoc;
    (split; [reflexivity | reflexivity]).
Qed.

Lemma program_made (c : Main.Command) (w : World) :
  Main.program Main.Made c w = Main.main c w.
Proof. reflexivity. Qed.

Lemma program_not_made (e : Exc) (c : Main.Command) (w : World) :
  Main.program (Main.NotMade e) c w
  = (Raise e,
     mkWorld (tree w) (config_file w) (ui_web_url w)
             Main.default_config_literal (app_config w) (stdout w)
             (calls w)).
Proof. reflexivity. Qed.

(** C8, as the code has it: the module makes the application directory
    before it loads the file, and outside the [try]. When the directory is
    there or made and the file is not there, cannot be opened or is not
    JSON, [app_config] is bound to the defaults (local storage, empty
    token, one worker, chunks of 16) and every extract command makes its
    Extractor with them, one worker; when the file holds an object, the
    Extractor gets the number of workers the object has. When the directory
    cannot be made, the run ends in the error of [mkdir]: nothing is
    printed, [app_config] is not bound and no command is entered. *)
Theorem default_config_gives_one_worker
        (d : Main.AppDir) (c : Main.Command) (w : World) :
  (Main.unloadable (config_file w) = true ->
   match d with
   | Main.Made =>
       Main.read_app_config (snd (Main.module_body d w))
       = (Return (JObj [("storage", JStr "local"); ("token", JStr "");
                        ("num_workers", JNum 1); ("chunksize", JNum 16)]),
          snd (Main.module_body d w)) /\
       (Main.is_extract c = true ->
        fst (Main.program d c w) = Return tt /\
        exists rest,
          calls (snd (Main.program d c w))
          = calls w
            ++ NewExtractor (JStr "local") (JNum 1) (JNum 16) (JStr "")
               :: rest /\
          forallb Main.is_extractor_call rest = true)
   | Main.NotMade e =>
       fst (Main.program d c w) = Raise e /\
       app_config (snd (Main.program d c w)) = app_config w /\
       stdout (snd (Main.program d c w)) = stdout w /\
       calls (snd (Main.program d c w)) = calls w
   end) /\
  (forall items,
      d = Main.Made ->
      config_file w = Holds (JObj items) ->
      Main.is_extract c = true ->
      Main.ydisk_without_token items = false ->
      fst (Main.program d c w) = Return tt /\
      exists storage chunksize token rest,
        calls (snd (Main.program d c w))
        = calls w
          ++ NewExtractor storage (Main.dict_get items "num_workers")
                          chunksize token :: rest).
Proof.
  split.
  - intros Hu. destruct d as [|e].
    + rewrite program_made, main_unfold.
      change (Main.module_body Main.Made) with Main.import_module.
      rewrite (import_module_defaults w Hu).
      cbn [snd]. split; [reflexivity|]. intros Hc.
      exact (extract_calls
               c (mkWorld (tree w) (config_file w) (ui_web_url w)
                          Main.default_config_literal SameAsDefault
                          (stdout w ++ [Main.failed_to_load]) (calls w))
               Main.default_config_literal Hc eq_refl eq_refl).
    + rewrite program_not_made. repeat split.
  - intros items -> Hcfg Hc Hy.
    rewrite program_made, main_unfold, (import_module_loaded w _ Hcfg).
    cbn [snd].
    destruct (extract_calls c
                (mkWorld (tree w) (config_file w) (ui_web_url w)
                         Main.default_config_literal (Loaded (JObj items))
                         (stdout w) (calls w)) items Hc eq_refl Hy)
      as [Hr [rest [Hcalls _]]].
    split; [exact Hr|]. unfold Main.extractor_of in Hcalls. eauto 6.
Qed.

Lemma default_config_gives_one_worker_witness :
  (exists rest,
      calls (snd (Main.program
                    Main.Made
                    (Main.ExtractSmb None None false (Some ["01.10"]))
                    (Samples.world_of Samples.empty_source Invalid)))
      = NewExtractor (JStr "local") (JNum 1) (JNum 16) (JStr "") :: rest) /\
  fst (Main.program Samples.no_app_dir
                    (Main.ExtractSmb None None false (Some ["01.10"]))
                    (Samples.world_of Samples.empty_source Absent))
  = Raise (FileExistsError Samples.app_dir) /\
  (exists storage chunksize token rest,
      calls (snd (Main.program
                    Main.Made
                    (Main.ExtractAll None None false None)
                    (Samples.world_of
                       Samples.empty_source
                       (Holds (JObj [("num_workers", JNum 4)])))))
      = NewExtractor storage (JNum 4) chunksize token :: rest).
Proof.
  split; [|split].
  - destruct (proj1 (default_config_gives_one_worker
                       Main.Made
                       (Main.ExtractSmb None None false (Some ["01.10"]))
                       (Samples.world_of Samples.empty_source Invalid))
                    eq_refl) as [_ H].
    destruct (H eq_refl) as [_ [rest [Hc _]]].
    exists rest. exact Hc.
  - exact (proj1 (proj1 (default_config_gives_one_worker
                           Samples.no_app_dir
                           (Main.ExtractSmb None None false (Some ["01.10"]))
                           (Samples.world_of Samples.empty_source Absent))
                        eq_refl)).
  - destruct (proj2 (default_config_gives_one_worker
                       Main.Made
                       (Main.ExtractAll None None false None)
                       (Samples.world_of
                          Samples.empty_source
                          (Holds (JObj [("num_workers", JNum 4)]))))
                    [("num_workers", JNum 4)] eq_refl eq_refl eq_refl
                    eq_refl)
      as [_ H].
    exact H.
Defined.

(** C8 as stated does not hold: in a run where the configuration file is
    absent and the application directory cannot be made, the module body
    raises at line 52; no configuration is loaded, [app_config] stays
    unbound, and the extract command, never entered, makes no Extractor. *)
Lemma unmade_app_dir_loads_no_configuration :
  let w := Samples.world_of Samples.empty_source Absent in
  let r := Main.program Samples.no_app_dir
                        (Main.ExtractSmb None None false None) w in
  Main.unloadable (config_file w) = true /\
  fst r = Raise (FileExistsError Samples.app_dir) /\
  app_config (snd r) = Unbound /\
  fst (Main.read_app_config (snd r)) = Raise (NameError "app_config") /\
  calls (snd r) = [].
Proof. repeat split. Qed.

Lemma aggregate_smb_raises_name_error_check :
  fst (Main.main (Main.AggregateSmb (Some ["in"]) None)
                 (Samples.world_of Samples.empty_source Absent))
  = Raise (NameError "out_file").
Proof.
  exact (proj1 (aggregate_smb_raises_name_error
                  (Some ["in"]) None
                  (Samples.world_of Samples.empty_source Absent))).
Defined.

(** ** The config command *)

Lemma config_update_steps (chunksize num_workers : Z)
      (storage : Main.Storages) (ydisk_token : string) (w : World) :
  Main.config false chunksize num_workers storage ydisk_token w
  = match Main.app_config_setitem "token" (JStr ydisk_token) w with
    | (Return _, w') => (Raise (NameError "extractor_num_workers"), w')
    | (Raise e, w') => (Raise e, w')
    | (HelpShown, w') => (HelpShown, w')
    end.
Proof. reflexivity. Qed.

Lemma setitem_keeps_file (key : string) (v : JValue) (w : World) :
  config_file (snd (Main.app_config_setitem key v w)) = config_file w /\
  tree (snd (Main.app_config_setitem key v w)) = tree w /\
  (Main.config_dict w <> None ->
   fst (Main.app_config_setitem key v w) = Return tt).
Proof.
  unfold Main.app_config_setitem, Main.config_dict. run_step.
  destruct (app_config w) as [| |[]]; repeat split; try reflexivity;
    intros H; now destruct H.
Qed.

Lemma import_module_dict (w : World) :
  Main.loads_dict_or_fails (config_file w) = true ->
  Main.config_dict (snd (Main.import_module w)) <> None.
Proof.
  intros H. destruct (config_file w) as [| | |v] eqn:E.
  1-3: rewrite import_module_defaults by (now rewrite E); discriminate.
  rewrite (import_module_loaded w v E).
  destruct v; try discriminate H. discriminate.
Qed.

(** C10, as the code has it: the config command never writes the
    configuration file when [--show] is not given. With no argument at all
    the help is shown and the function is not entered; with an option, and
    a configuration that is a dictionary (the defaults, or an object loaded
    from the file), the token is stored in memory and the next line raises
    the [NameError] of [extractor_num_workers]. *)
Theorem config_update_never_reaches_the_file
        (chunksize num_workers : option Z) (storage : option Main.Storages)
        (ydisk_token : option string) (w : World) :
  let c := Main.Config false chunksize num_workers storage ydisk_token in
  config_file (snd (Main.main c w)) = config_file w /\
  (Main.no_args c = true -> fst (Main.main c w) = HelpShown) /\
  (Main.no_args c = false ->
   Main.loads_dict_or_fails (config_file w) = true ->
   fst (Main.main c w) = Raise (NameError "extractor_num_workers")).
Proof.
  intros c. subst c. rewrite main_unfold.
  destruct (import_module_frame w) as (_ & _ & Hcfg & _).
  pose proof (import_module_dict w) as Hdict.
  set (w1 := snd (Main.import_module w)) in *.
  unfold Main.invoke.
  destruct (Main.no_args _) eqn:Hn.
  - split; [exact Hcfg|]. split; [reflexivity | discriminate].
  - rewrite config_update_steps.
    destruct (setitem_keeps_file
                "token" (JStr (Main.or_default ydisk_token "")) w1)
      as (Hf & _ & Hr).
    destruct (Main.app_config_setitem _ _ w1) as [[[]|e|] w2];
      cbn [fst snd] in *; (split; [congruence|]);
      (split; [discriminate|]); intros _ Hl;
      specialize (Hr (Hdict Hl)); congruence.
Qed.

Lemma config_update_never_reaches_the_file_witness :
  fst (Main.main (Main.Config false None (Some 4%Z) None None)
                 (Samples.world_of Samples.empty_source
                                   (Holds (JObj [("num_workers", JNum 1)]))))
  = Raise (NameError "extractor_num_workers") /\
  fst (Main.main (Main.Config false None None None None)
                 (Samples.world_of Samples.empty_source Absent))
  = HelpShown.
Proof.
  split.
  - apply (proj2 (proj2 (config_update_never_reaches_the_file
                           None (Some 4%Z) None None
                           (Samples.world_of
                              Samples.empty_source
                              (Holds (JObj [("num_workers", JNum 1)]))))));
      reflexivity.
  - apply (proj1 (proj2 (config_update_never_reaches_the_file
                           None None None None
                           (Samples.world_of Samples.empty_source Absent)))).
    reflexivity.
Defined.

(** C10 as stated does not hold: the config command without [--show]
    and without any other argument shows the help and raises nothing. *)
Lemma config_without_arguments_shows_help :
  let r := Main.main (Main.Config false None None None None)
                     (Samples.world_of Samples.empty_source Absent) in
  fst r = HelpShown /\
  fst r <> Raise (NameError "extractor_num_workers") /\
  fst r <> Raise (NameError "extractor_chunksize").
Proof. repeat split; discriminate. Qed.

(** ** The order of snapshot dates *)

Lemma date_ltb_spec (a b : Dates.Date) :
  Dates.ltb a b = true <->
  (Dates.year a < Dates.year b \/
   (Dates.year a = Dates.year b /\
    (Dates.month a < Dates.month b \/
     (Dates.month a = Dates.month b /\ Dates.day a < Dates.day b)))).
Proof.
  unfold Dates.ltb.
  repeat rewrite ?orb_true_iff, ?andb_true_iff, ?Nat.ltb_lt, ?Nat.eqb_eq.
  reflexivity.
Qed.

Lemma date_ltb_trans (a b c : Dates.Date) :
  Dates.ltb a b = true -> Dates.ltb b c = true -> Dates.ltb a c = true.
Proof. rewrite !date_ltb_spec. lia. Qed.

Lemma date_ltb_after (o x r : Dates.Date) :
  Dates.ltb o x = false -> Dates.ltb o r = true -> Dates.ltb x r = true.
Proof.
  intros H. apply not_true_iff_false in H. revert H.
  rewrite !date_ltb_spec. lia.
Qed.

(** ** The key-to-row map *)

Lemma upsert_new (m : gmap string Aggregator.Row) (r : Aggregator.Row) :
  m !! Aggregator.ident r = None ->
  Aggregator.upsert m r !! Aggregator.ident r = Some r.
Proof.
  intros H. unfold Aggregator.upsert. rewrite H. apply lookup_insert_eq.
Qed.

Lemma upsert_known (m : gmap string Aggregator.Row)
      (r old : Aggregator.Row) :
  m !! Aggregator.ident r = Some old ->
  Aggregator.upsert m r !! Aggregator.ident r
  = Some (if Dates.ltb (Aggregator.snapshot old) (Aggregator.snapshot r)
          then r else old).
Proof.
  intros H. unfold Aggregator.upsert. rewrite H.
  destruct (Dates.ltb _ _); [apply lookup_insert_eq | exact H].
Qed.

Lemma upsert_other (m : gmap string Aggregator.Row) (r : Aggregator.Row)
      (k : string) :
  k <> Aggregator.ident r ->
  Aggregator.upsert m r !! k = m !! k.
Proof.
  intros H. unfold Aggregator.upsert.
  destruct (m !! Aggregator.ident r) as [old|];
    [destruct (Dates.ltb _ _)|]; try reflexivity;
    now apply lookup_insert_ne.
Qed.

Lemma fold_rows_snoc (rows : list Aggregator.Row) (r : Aggregator.Row) :
  Aggregator.fold_rows (rows ++ [r])
  = Aggregator.upsert (Aggregator.fold_rows rows) r.
Proof. unfold Aggregator.fold_rows. apply foldl_snoc. Qed.

Lemma fold_rows_first_latest (rows : list Aggregator.Row) (k : string) :
  Aggregator.first_latest rows k (Aggregator.fold_rows rows !! k).
Proof.
  induction rows as [|r rows IH] using rev_ind.
  - unfold Aggregator.fold_rows. cbn [foldl]. rewrite lookup_empty.
    intros x [].
  - rewrite fold_rows_snoc.
    destruct (decide (k = Aggregator.ident r)) as [->|Hne].
    + destruct (Aggregator.fold_rows rows !! Aggregator.ident r)
        as [old|] eqn:E.
      * rewrite (upsert_known _ _ _ E).
        destruct IH as [Hid (b & a & -> & Hb & Ha)].
        destruct (Dates.ltb (Aggregator.snapshot old)
                            (Aggregator.snapshot r)) eqn:Hlt.
        -- split; [reflexivity|].
           exists (b ++ old :: a), []. split; [reflexivity|]. split.
           ++ intros x Hx Hk. apply in_app_or in Hx as [Hx | [<- | Hx]].
              ** eapply date_ltb_trans; [apply Hb|]; eassumption.
              ** exact Hlt.
              ** eapply date_ltb_after; [apply Ha|]; eassumption.
           ++ intros x [].
        -- split; [exact Hid|].
           exists b, (a ++ [r]). split; [now rewrite <- app_assoc|]. split.
           ++ exact Hb.
           ++ intros x Hx Hk. apply in_app_or in Hx as [Hx | [<- | []]].
              ** now apply Ha.
              ** exact Hlt.
      * rewrite (upsert_new _ _ E). split; [reflexivity|].
        exists rows, []. split; [reflexivity|]. split.
        -- intros x Hx Hk. now destruct (IH x Hx).
        -- intros x [].
    + rewrite (upsert_other _ _ _ Hne).
      destruct (Aggregator.fold_rows rows !! k) as [old|].
      * destruct IH as [Hid (b & a & -> & Hb & Ha)]. split; [exact Hid|].
        exists b, (a ++ [r]). split; [now rewrite <- app_assoc|]. split.
        -- exact Hb.
        -- intros x Hx Hk. apply in_app_or in Hx as [Hx | [<- | []]].
           ++ now apply Ha.
           ++ now destruct Hne.
      * intros x Hx. apply in_app_or in Hx as [Hx | [<- | []]].
        -- now apply IH.
        -- congruence.
Qed.

(** C1: in the key-to-row map of the aggregation, a row with a new
    identifier is inserted; a row with a known identifier replaces the
    stored one exactly when its snapshot date is strictly later; the other
    identifiers keep their rows; so after any sequence of rows the map
    holds, for each identifier, the first row among those with the latest
    snapshot date. *)
Theorem latest_snapshot_wins_first_seen_on_ties
        (m : gmap string Aggregator.Row) (rows : list Aggregator.Row)
        (r : Aggregator.Row) (k : string) :
  (m !! Aggregator.ident r = None ->
   Aggregator.upsert m r !! Aggregator.ident r = Some r) /\
  (forall old,
      m !! Aggregator.ident r = Some old ->
      Aggregator.upsert m r !! Aggregator.ident r
      = Some (if Dates.ltb (Aggregator.snapshot old) (Aggregator.snapshot r)
              then r else old)) /\
  (k <> Aggregator.ident r -> Aggregator.upsert m r !! k = m !! k) /\
  Aggregator.first_latest rows k (Aggregator.fold_rows rows !! k).
Proof.
  split; [apply upsert_new|]. split; [intros old; apply upsert_known|].
  split; [apply upsert_other | apply fold_rows_first_latest].
Qed.

Example latest_of_two :
  Aggregator.fold_rows [Samples.row_2021; Samples.row_2022] !! "7701"
  = Some Samples.row_2022.
Proof. vm_compute. reflexivity. Qed.

Example first_of_a_tie :
  Aggregator.fold_rows [Samples.row_2022; Samples.row_2022_again;
                        Samples.row_2021] !! "7701"
  = Some Samples.row_2022.
Proof. vm_compute. reflexivity. Qed.

Lemma latest_snapshot_wins_first_seen_on_ties_witness :
  Aggregator.upsert (Aggregator.fold_rows [Samples.row_2021])
                    Samples.row_2022 !! "7701"
  = Some Samples.row_2022 /\
  Aggregator.upsert (Aggregator.fold_rows [Samples.row_2022])
                    Samples.row_2022_again !! "7701"
  = Some Samples.row_2022 /\
  Aggregator.upsert ∅ Samples.row_2021 !! "7701" = Some Samples.row_2021 /\
  Aggregator.upsert ∅ Samples.row_2021 !! "5001" = None.
Proof.
  split; [|split; [|split]].
  - exact (proj1 (proj2 (latest_snapshot_wins_first_seen_on_ties
                           (Aggregator.fold_rows [Samples.row_2021]) []
                           Samples.row_2022 "7701"))
                 Samples.row_2021 eq_refl).
  - exact (proj1 (proj2 (latest_snapshot_wins_first_seen_on_ties
                           (Aggregator.fold_rows [Samples.row_2022]) []
                           Samples.row_2022_again "7701"))
                 Samples.row_2022 eq_refl).
  - exact (proj1 (latest_snapshot_wins_first_seen_on_ties
                    ∅ [] Samples.row_2021 "7701") eq_refl).
  - rewrite (proj1 (proj2 (proj2 (latest_snapshot_wins_first_seen_on_ties
                                    ∅ [] Samples.row_2021 "5001"))));
      [reflexivity | discriminate].
Defined.

(** ** The code filter *)

Lemma upper_is_no_digit (c : ascii) :
  CodeTree.is_upper c = true -> Dates.is_digit c = false.
Proof.
  unfold CodeTree.is_upper, Dates.is_digit. intros H.
  apply andb_prop in H as [H _]. apply Nat.leb_le in H.
  apply andb_false_iff. right. apply Nat.leb_gt. lia.
Qed.

Lemma group_letter_is_no_code (s : string) :
  CodeTree.is_group_letter s = true ->
  forallb CodeTree.is_segment (CodeTree.split_dots s) = false.
Proof.
  destruct s as [|c [|c' s]]; try discriminate. cbn [CodeTree.is_group_letter].
  intros H. cbn [CodeTree.split_dots].
  destruct (Ascii.eqb c "."); [reflexivity|].
  cbn [forallb CodeTree.is_segment CodeTree.all_digits].
  now rewrite (upper_is_no_digit c H).
Qed.

Lemma classify_dotted (s : string) :
  forallb CodeTree.is_segment (CodeTree.split_dots s) = true ->
  CodeTree.classify s = CodeTree.Dotted (CodeTree.split_dots s).
Proof.
  intros H. unfold CodeTree.classify.
  destruct (CodeTree.is_group_letter s) eqn:G.
  - apply group_letter_is_no_code in G. congruence.
  - now rewrite H.
Qed.

Lemma codes_of_in (filters : list string) (f : string)
      (segs : list string) :
  In f filters ->
  CodeTree.classify f = CodeTree.Dotted segs ->
  In segs (CodeTree.codes_of filters).
Proof.
  intros Hin Hc. induction filters as [|g filters IH]; [destruct Hin|].
  cbn [CodeTree.codes_of]. destruct Hin as [-> | Hin].
  - rewrite Hc. now left.
  - destruct (CodeTree.classify g); auto. right. auto.
Qed.

Lemma forallb_firstn {A} (p : A -> bool) (n : nat) (l : list A) :
  forallb p l = true -> forallb p (firstn n l) = true.
Proof.
  revert n. induction l as [|x l IH]; intros [|n] H; try reflexivity.
  cbn [firstn forallb] in *. apply andb_prop in H as [Hx Hl].
  now rewrite Hx, IH.
Qed.

Lemma ancestor_is_code (f c : string) :
  CodeTree.well_formed c = true ->
  CodeTree.ancestor_prefix f c ->
  CodeTree.classify f = CodeTree.Dotted (CodeTree.split_dots f).
Proof.
  unfold CodeTree.well_formed, CodeTree.ancestor_prefix, CodeTree.truncate.
  intros Hw Ha. apply classify_dotted. rewrite <- Ha.
  now apply forallb_firstn.
Qed.

Lemma matches_ancestor (filters : list string) (c : CodeTree.ActivityCode)
      (f : string) :
  In f filters ->
  CodeTree.well_formed (CodeTree.code c) = true ->
  CodeTree.ancestor_prefix f (CodeTree.code c) ->
  CodeTree.matches (CodeTree.build filters) c = true.
Proof.
  intros Hin Hw Ha. unfold CodeTree.matches.
  destruct (negb (CodeTree.enabled (CodeTree.build filters)));
    [reflexivity|].
  rewrite (classify_dotted _ Hw).
  apply orb_true_iff. right. apply orb_true_iff. right.
  apply existsb_exists. exists (CodeTree.split_dots f). split.
  - apply (codes_of_in filters f); [exact Hin|].
    now apply (ancestor_is_code f (CodeTree.code c)).
  - apply bool_decide_eq_true. exact Ha.
Qed.

(** C2: a code matches when one of the configured filters is an ancestor
    prefix of it, the code being a dotted code; with an empty filter list,
    or with the [ac] option not given, every code matches. *)
Theorem ancestor_filter_matches_and_no_filter_matches_all
        (filters : list string) (c : CodeTree.ActivityCode) (f : string) :
  (In f filters ->
   CodeTree.well_formed (CodeTree.code c) = true ->
   CodeTree.ancestor_prefix f (CodeTree.code c) ->
   CodeTree.matches (CodeTree.build filters) c = true) /\
  CodeTree.matches (CodeTree.build []) c = true /\
  CodeTree.matches (CodeTree.of_option None) c = true /\
  CodeTree.matches (CodeTree.of_option (Some [])) c = true.
Proof.
  split; [apply matches_ancestor|]. repeat split.
Qed.

Lemma ancestor_filter_matches_and_no_filter_matches_all_witness :
  CodeTree.matches (CodeTree.build ["69.20"; "01.10"])
                   (CodeTree.mkCode (Some "A") "01.10.02") = true.
Proof.
  apply (proj1 (ancestor_filter_matches_and_no_filter_matches_all
                  ["69.20"; "01.10"]
                  (CodeTree.mkCode (Some "A") "01.10.02") "01.10")).
  - right. left. reflexivity.
  - reflexivity.
  - reflexivity.
Defined.

Example sibling_does_not_match :
  CodeTree.matches (CodeTree.build ["01.10"])
                   (CodeTree.mkCode None "01.11.01") = false.
Proof. reflexivity. Qed.

Example group_filter_matches :
  CodeTree.matches (CodeTree.build ["A"])
                   (CodeTree.mkCode (Some "A") "01.11.01") = true.
Proof. reflexivity. Qed.

(** The extract commands hand the filter list of the command line to the
    Extractor as it is, [None] when the option was not given. *)
Lemma extract_smb_hands_filters_on
      (in_dir out_dir : Path) (clear : bool) (ac : option (list string))
      (items : list (string * JValue)) (w : World) :
  Main.config_dict w = Some items ->
  Main.ydisk_without_token items = false ->
  calls (snd (Main.extract_smb in_dir out_dir clear ac w))
  = calls w ++ [Main.extractor_of items;
                ExtractorCall (str in_dir) (str out_dir) "smb" clear
                              (Passed ac)].
Proof.
  intros Hd Hy. unfold Main.extract_smb, bind.
  rewrite (make_extractor_calls w items Hd Hy).
  cbn -[Pathlib.str Main.extractor_of]. now rewrite <- app_assoc.
Qed.

(** The aggregate all command makes no check of the companion file: it
    hands the default path to the Aggregator for the two kinds that take
    one, whatever the data tree holds. *)
Lemma aggregate_all_passes_default_companion
      (in_dir out_dir : Path) (w : World) :
  Main.aggregate_all in_dir out_dir w
  = (Return tt,
     called
       (AggregatorCall (str (div in_dir "empl"))
                       (str (div (div out_dir "empl") "agg.csv")) "empl"
                       (Passed "ru-smb-data/aggregate/smb/agg.csv"))
       (called
          (AggregatorCall (str (div in_dir "revexp"))
                          (str (div (div out_dir "revexp") "agg.csv"))
                          "revexp"
                          (Passed "ru-smb-data/aggregate/smb/agg.csv"))
          (called
             (AggregatorCall (str (div in_dir "smb"))
                             (str (div (div out_dir "smb") "agg.csv"))
                             "smb" NotPassed)
             (called NewAggregator w)))).
Proof. reflexivity. Qed.

(** * Further properties of the stage and of the commands *)

(** ** When [_read] returns nothing *)

Lemma read_missing (w : World) (in_path : Path) (sch : Spark.StructType) :
  exists_ (tree w) in_path = false ->
  SparkStage._read in_path sch w
  = (Return None, says ("Input path " ++ str in_path ++ " not found") w).
Proof.
  intros H. unfold SparkStage._read. run_step. now rewrite H.
Qed.

Lemma read_with_input (w : World) (in_path : Path) (sch : Spark.StructType) :
  exists_ (tree w) in_path = true ->
  SparkStage.input_files (tree w) in_path <> [] ->
  SparkStage._read in_path sch w
  = match SparkStage.session_read_csv
            sch (SparkStage.input_files (tree w) in_path) w with
    | (Return data, w') =>
        (Return (Some data),
         says ("Source CSV contains " ++ pretty (Spark.count data) ++ " rows")
              w')
    | (Raise e, w') => (Raise e, w')
    | (HelpShown, w') => (HelpShown, w')
    end.
Proof.
  intros Hex Hne. unfold SparkStage._read. run_step.
  rewrite Hex. cbv beta iota zeta delta [negb].
  destruct (SparkStage.input_files (tree w) in_path) as [|f fs];
    [now destruct Hne|].
  cbv beta iota delta [List.length Nat.eqb].
  destruct (SparkStage.session_read_csv sch (f :: fs) w) as [[d|e|] w'];
    reflexivity.
Qed.

Lemma read_keeps_tree (w : World) (in_path : Path) (sch : Spark.StructType) :
  tree (snd (SparkStage._read in_path sch w)) = tree w /\
  config_file (snd (SparkStage._read in_path sch w)) = config_file w.
Proof.
  destruct (exists_ (tree w) in_path) eqn:Hex.
  - destruct (SparkStage.input_files (tree w) in_path) as [|f fs] eqn:E.
    + now rewrite read_without_input.
    + rewrite read_with_input by (rewrite ?E; easy). rewrite E.
      pose proof (session_read_csv_world sch (f :: fs) w) as Hw.
      destruct (SparkStage.session_read_csv sch (f :: fs) w)
        as [[d|e|] w']; simpl in Hw; subst w'; split; reflexivity.
  - now rewrite read_missing.
Qed.

(** [_read] returns [None] exactly when the input path is missing or gives
    no input file; it then has called no reader, and it says which of the
    two it was. It never touches the data tree or the configuration
    file. *)
Theorem read_returns_none_exactly_without_input
        (w : World) (in_path : Path) (sch : Spark.StructType) :
  (fst (SparkStage._read in_path sch w) = Return None <->
   exists_ (tree w) in_path = false \/
   SparkStage.input_files (tree w) in_path = []) /\
  (exists_ (tree w) in_path = false ->
   SparkStage._read in_path sch w
   = (Return None, says ("Input path " ++ str in_path ++ " not found") w)) /\
  (fst (SparkStage._read in_path sch w) = Return None ->
   calls (snd (SparkStage._read in_path sch w)) = calls w) /\
  tree (snd (SparkStage._read in_path sch w)) = tree w /\
  config_file (snd (SparkStage._read in_path sch w)) = config_file w.
Proof.
  assert (Hiff : fst (SparkStage._read in_path sch w) = Return None <->
                 exists_ (tree w) in_path = false \/
                 SparkStage.input_files (tree w) in_path = []).
  { destruct (exists_ (tree w) in_path) eqn:Hex.
    - destruct (SparkStage.input_files (tree w) in_path) as [|f fs] eqn:E.
      + rewrite read_without_input by assumption. tauto.
      + rewrite read_with_input by (rewrite ?E; easy). rewrite E.
        split.
        * destruct (SparkStage.session_read_csv sch (f :: fs) w)
            as [[d|e|] w']; discriminate.
        * intros [H | H]; discriminate.
    - rewrite read_missing by assumption. tauto. }
  split; [exact Hiff|]. split; [apply read_missing|]. split.
  - intros H. apply Hiff in H as [H | H].
    + now rewrite read_missing.
    + destruct (exists_ (tree w) in_path) eqn:Hex.
      * now rewrite read_without_input.
      * now rewrite read_missing.
  - apply read_keeps_tree.
Qed.

Lemma read_returns_none_exactly_without_input_witness :
  SparkStage._read ["nowhere"] Samples.sch
                   (Samples.world_of Samples.empty_source Absent)
  = (Return None,
     says "Input path nowhere not found"
          (Samples.world_of Samples.empty_source Absent)) /\
  calls (snd (SparkStage._read Samples.in_smb Samples.sch
                               (Samples.world_of Samples.empty_source
                                                 Absent))) = [].
Proof.
  split.
  - apply (proj1 (proj2 (read_returns_none_exactly_without_input
                           (Samples.world_of Samples.empty_source Absent)
                           ["nowhere"] Samples.sch))).
    reflexivity.
  - apply (proj1 (proj2 (proj2 (read_returns_none_exactly_without_input
                                  (Samples.world_of Samples.empty_source
                                                    Absent)
                                  Samples.in_smb Samples.sch)))).
    reflexivity.
Defined.

(** ** Which files are chunk files *)

Lemma fnmatch_star (pat s : string) :
  fnmatch (String "*" pat) s = true <->
  exists a b, s = (a ++ b)%string /\ fnmatch pat b = true.
Proof.
  induction s as [|c s IH].
  - cbn. rewrite orb_false_r. split.
    + intros H. now exists "", "".
    + intros (a & b & E & H). destruct a; [|discriminate].
      rewrite append_nil_l in E. now subst b.
  - change (fnmatch (String "*" pat) (String c s))
      with (fnmatch pat (String c s) || fnmatch (String "*" pat) s)%bool.
    rewrite orb_true_iff, IH. split.
    + intros [H | (a & b & -> & H)].
      * now exists "", (String c s).
      * now exists (String c a), b.
    + intros (a & b & E & H). destruct a as [|c' a].
      * rewrite append_nil_l in E. subst b. now left.
      * rewrite append_cons in E. injection E as -> ->. right. eauto.
Qed.

Lemma fnmatch_literal (p : ascii) (pat : string) (s : string) :
  Ascii.eqb p "*" = false ->
  Ascii.eqb p "?" = false ->
  fnmatch (String p pat) s = true <->
  exists rest, s = String p rest /\ fnmatch pat rest = true.
Proof.
  intros Hs Hq. destruct s as [|c s].
  - cbn [fnmatch]. rewrite Hs. split; [discriminate|].
    intros (rest & E & _). discriminate.
  - cbn [fnmatch]. rewrite Hs, Hq. cbn [orb].
    rewrite andb_true_iff, Ascii.eqb_eq. split.
    + intros [<- H]. eauto.
    + intros (rest & E & H). injection E as -> ->. auto.
Qed.

Lemma fnmatch_end (s : string) : fnmatch "" s = true <-> s = "".
Proof. destruct s; cbn; split; congruence. Qed.

Lemma fnmatch_dot_csv (s : string) :
  fnmatch ".csv" s = true <-> s = ".csv".
Proof.
  split; [|now intros ->].
  intros H.
  apply fnmatch_literal in H as (s1 & -> & H); [|reflexivity..].
  apply fnmatch_literal in H as (s2 & -> & H); [|reflexivity..].
  apply fnmatch_literal in H as (s3 & -> & H); [|reflexivity..].
  apply fnmatch_literal in H as (s4 & -> & H); [|reflexivity..].
  apply fnmatch_end in H as ->. reflexivity.
Qed.

Lemma fnmatch_data_prefix (s : string) :
  fnmatch "data-*.csv" s = true <->
  exists rest, s = ("data-" ++ rest)%string /\ fnmatch "*.csv" rest = true.
Proof.
  split.
  - intros H.
    apply fnmatch_literal in H as (s1 & -> & H); [|reflexivity..].
    apply fnmatch_literal in H as (s2 & -> & H); [|reflexivity..].
    apply fnmatch_literal in H as (s3 & -> & H); [|reflexivity..].
    apply fnmatch_literal in H as (s4 & -> & H); [|reflexivity..].
    apply fnmatch_literal in H as (s5 & -> & H); [|reflexivity..].
    now exists s5.
  - intros (rest & -> & H).
    do 5 (apply fnmatch_literal; [reflexivity | reflexivity |];
          eexists; split; [reflexivity|]).
    exact H.
Qed.

Lemma chunk_name_shape (nm : string) :
  fnmatch "data-*.csv" nm = true <->
  exists middle, nm = ("data-" ++ middle ++ ".csv")%string.
Proof.
  rewrite fnmatch_data_prefix. split.
  - intros (rest & -> & H). apply fnmatch_star in H as (a & b & -> & H).
    apply fnmatch_dot_csv in H as ->. now exists a.
  - intros (middle & ->). exists (middle ++ ".csv")%string.
    split; [reflexivity|]. apply fnmatch_star. now exists middle, ".csv".
Qed.

Lemma div_inj (p : Path) (a b : string) : div p a = div p b -> a = b.
Proof.
  unfold div. intros H. apply app_inj_tail in H as [_ H]. exact H.
Qed.

(** The input files of a directory that can be listed are its children
    named data-, anything, .csv; the match is on the whole name. *)
Theorem chunk_files_are_named_data_dash_csv
        (t : Node) (in_path : Path) (entries : list (string * Node))
        (nm : string) :
  resolve t in_path = Some (Dir true entries) ->
  (In (div in_path nm) (SparkStage.input_files t in_path) <->
   In nm (List.map fst entries) /\
   exists middle, nm = ("data-" ++ middle ++ ".csv")%string).
Proof.
  intros Hr. unfold SparkStage.input_files, is_dir, glob. rewrite Hr.
  rewrite <- chunk_name_shape, in_map_iff. split.
  - intros ([k n] & E & H). apply div_inj in E. cbn [fst] in E. subst k.
    apply filter_In in H as [H1 H2]. split; [|exact H2].
    apply in_map_iff. now exists (nm, n).
  - intros [H1 H2]. apply in_map_iff in H1 as ([k n] & E & H).
    cbn [fst] in E. subst k. exists (nm, n). split; [reflexivity|].
    apply filter_In. now split.
Qed.

Lemma chunk_files_are_named_data_dash_csv_witness :
  In (div Samples.in_smb "data-1.csv")
     (SparkStage.input_files Samples.with_chunk Samples.in_smb).
Proof.
  apply (chunk_files_are_named_data_dash_csv
           Samples.with_chunk Samples.in_smb
           [("data-1.csv",
             File true [["id"; "date"]; ["1"; "10.08.2021"];
                        ["2"; "unknown"]])]
           "data-1.csv" eq_refl).
  split; [left; reflexivity | exists "1"; reflexivity].
Defined.

(** ** What [_read] returns when it reads *)

Lemma convert_fields_length (o : Spark.ReadOptions) (sch : Spark.StructType)
      (rec : Record_) :
  List.length (Spark.convert_fields o sch rec) = List.length sch.
Proof.
  revert rec. induction sch as [|[n t] sch IH]; intros rec; [reflexivity|].
  destruct rec as [|c rec]; cbn [Spark.convert_fields List.length];
    now rewrite IH.
Qed.

Lemma permissive_row_length (o : Spark.ReadOptions)
      (sch : Spark.StructType) (rec : Record_) :
  List.length (Spark.permissive_row o sch rec) = List.length sch.
Proof.
  unfold Spark.permissive_row.
  now rewrite length_map, convert_fields_length.
Qed.

(** When the input files load, [_read] returns a frame of the given schema
    with one row for each record after the first of each file, every row
    with one cell for each column whatever the number of cells of the
    record; it has called the reader once on these files and printed the
    number of rows. *)
Theorem read_gives_a_row_per_data_record
        (w : World) (in_path : Path) (sch : Spark.StructType)
        (contents : list (list Record_)) :
  exists_ (tree w) in_path = true ->
  SparkStage.input_files (tree w) in_path <> [] ->
  SparkStage.load_all (tree w) (SparkStage.input_files (tree w) in_path)
  = Return contents ->
  exists df,
    SparkStage._read in_path sch w
    = (Return (Some df),
       says ("Source CSV contains " ++ pretty (Spark.count df) ++ " rows")
            (called (CsvRead (SparkStage.input_files (tree w) in_path)) w)) /\
    Spark.schema df = sch /\
    Spark.count df
    = List.length (List.concat (List.map (@List.tl Record_) contents)) /\
    Forall (fun row => List.length row = List.length sch) (Spark.rows df).
Proof.
  intros Hex Hne Hload.
  exists (Spark.mkDataFrame
            sch
            (List.map (Spark.permissive_row SparkStage.read_options sch)
                      (List.concat (List.map (@List.tl Record_) contents)))).
  split; [|split; [reflexivity|split]].
  - rewrite read_with_input by assumption.
    unfold SparkStage.session_read_csv. run_step.
    change (tree (called (CsvRead (SparkStage.input_files (tree w) in_path))
                         w)) with (tree w).
    rewrite Hload, read_csv_permissive. reflexivity.
  - unfold Spark.count. cbn [Spark.rows]. apply length_map.
  - cbn [Spark.rows]. apply Forall_forall. intros row Hrow.
    apply list_elem_of_In, in_map_iff in Hrow as (rec & <- & _).
    apply permissive_row_length.
Qed.

Lemma read_gives_a_row_per_data_record_witness :
  exists df,
    fst (SparkStage._read Samples.in_smb Samples.sch
                          (Samples.world_of Samples.with_chunk Absent))
    = Return (Some df) /\
    Spark.count df = 2.
Proof.
  destruct (read_gives_a_row_per_data_record
              (Samples.world_of Samples.with_chunk Absent)
              Samples.in_smb Samples.sch
              [[["id"; "date"]; ["1"; "10.08.2021"]; ["2"; "unknown"]]]
              eq_refl ltac:(discriminate) eq_refl)
    as (df & H & _ & Hc & _).
  exists df. rewrite H. split; [reflexivity | exact Hc].
Defined.

(** ** A null written and read back *)

(** A null that [_write] has written does not come back as a null through
    the options of [_read]: [_write] sets the null value NA and [_read]
    sets none, so in a text column the cell is read as the text NA; in a
    date or a number column NA does not convert and the permissive reader
    gives null. *)
Theorem written_null_is_read_as_text_NA
        (sch : Spark.StructType) (row : list Spark.Cell) (i : nat)
        (nm : string) (ty : Spark.DataType) :
  nth_error sch i = Some (nm, ty) ->
  nth_error row i = Some None ->
  nth_error (Spark.permissive_row
               SparkStage.read_options sch
               (Spark.render_row SparkStage.write_options row)) i
  = Some (match ty with
          | Spark.StringType => Some (Spark.VStr "NA")
          | _ => None
          end).
Proof.
  intros Hs Hr. unfold Spark.permissive_row.
  rewrite nth_error_map,
    (convert_fields_nth _ _ _ _ _ _ _ Hs (render_row_nth _ _ _ _ Hr)).
  now destruct ty.
Qed.

Lemma written_null_is_read_as_text_NA_witness :
  nth_error (Spark.permissive_row
               SparkStage.read_options
               [("id", Spark.StringType); ("name", Spark.StringType);
                ("date", Spark.DateType)]
               (Spark.render_row SparkStage.write_options
                                 [Some (Spark.VStr "1"); None; None])) 1
  = Some (Some (Spark.VStr "NA")).
Proof.
  apply (written_null_is_read_as_text_NA
           [("id", Spark.StringType); ("name", Spark.StringType);
            ("date", Spark.DateType)]
           [Some (Spark.VStr "1"); None; None] 1 "name" Spark.StringType);
    reflexivity.
Defined.

(** ** Where [_write] puts the file *)

Lemma resolve_cons_dir (r : bool) (entries : list (string * Node))
      (c : string) (p : Path) :
  resolve (Dir r entries) (c :: p)
  = match assoc c entries with
    | Some n => resolve n p
    | None => None
    end.
Proof. reflexivity. Qed.

Lemma resolve_empty_dir (r : bool) (p : Path) (nm : string) :
  resolve (Dir r []) (p ++ [nm]) = None.
Proof. now destruct p. Qed.

Lemma mkdir_p_keeps_below (q : Path) (t t' : Node) (nm : string) :
  mkdir_p t q = Some t' ->
  resolve t' (q ++ [nm]) = resolve t (q ++ [nm]).
Proof.
  revert t t'. induction q as [|c q IH]; intros t t' H.
  - destruct t; [discriminate|]. now injection H as <-.
  - destruct t as [|r entries]; [discriminate|]. cbn [mkdir_p] in H.
    destruct (mkdir_p _ q) as [child'|] eqn:E; [|discriminate].
    injection H as <-. rewrite <- !app_comm_cons, !resolve_cons_dir.
    rewrite assoc_put_eq, (IH _ _ E).
    destruct (assoc c entries); [reflexivity | apply resolve_empty_dir].
Qed.

Lemma mkdir_p_is_dir (q : Path) (t t' : Node) :
  mkdir_p t q = Some t' -> is_dir t' q = true.
Proof.
  unfold is_dir. revert t t'. induction q as [|c q IH]; intros t t' H.
  - destruct t; [discriminate|]. now injection H as <-.
  - destruct t as [|r entries]; [discriminate|]. cbn [mkdir_p] in H.
    destruct (mkdir_p _ q) as [child'|] eqn:E; [|discriminate].
    injection H as <-. rewrite resolve_cons_dir, assoc_put_eq.
    eapply IH, E.
Qed.

Lemma place_in_dir (q : Path) (t : Node) (nm : string) (n : Node) :
  is_dir t q = true ->
  exists t', place t (q ++ [nm]) n = Some t' /\ is_dir t' q = true.
Proof.
  unfold is_dir. revert t. induction q as [|c q IH]; intros t H.
  - destruct t as [|r entries]; [discriminate|]. cbn. eauto.
  - destruct t as [|r entries]; [discriminate|].
    rewrite resolve_cons_dir in H.
    destruct (assoc c entries) as [child|] eqn:E; [|discriminate].
    destruct (IH child H) as (child' & Hp & Hd).
    exists (Dir r (put c child' entries)). split.
    + rewrite <- app_comm_cons. cbn [place]. rewrite E, Hp.
      now destruct q.
    + now rewrite resolve_cons_dir, assoc_put_eq.
Qed.

Lemma parent_and_name (p : Path) :
  p <> [] -> p = parent p ++ [name p].
Proof. intros H. now apply app_removelast_last. Qed.

Lemma write_to_a_fresh_place (df : Spark.DataFrame) (out_file : Path)
      (w : World) (t' : Node) :
  Spark.first_failure df = None ->
  is_dir (tree w) out_file = false ->
  mkdir_p (tree w) (parent out_file) = Some t' ->
  exists t'',
    SparkStage._write (Some df) out_file w = set_tree t'' w /\
    resolve t'' out_file
    = Some (File true (Spark.render_frame SparkStage.write_options df)) /\
    is_dir t'' (parent out_file) = true.
Proof.
  intros Hok Hnd Hmk.
  assert (Hne : out_file <> []).
  { intros ->. cbn in Hmk. unfold is_dir in Hnd. cbn in Hnd.
    destruct (tree w); discriminate. }
  pose proof (parent_and_name out_file Hne) as Hsplit.
  assert (Hnd' : is_dir t' out_file = false).
  { unfold is_dir in *. rewrite Hsplit.
    now rewrite (mkdir_p_keeps_below _ _ _ _ Hmk), <- Hsplit. }
  destruct (place_in_dir (parent out_file) t' (name out_file)
                         (File true (Spark.render_frame
                                       SparkStage.write_options df))
                         (mkdir_p_is_dir _ _ _ Hmk))
    as (t'' & Hp & Hd).
  rewrite <- Hsplit in Hp.
  exists t''. split; [|split; [|exact Hd]].
  - rewrite write_steps, Hok, Hmk.
    unfold SparkStage.move. run_step. cbn [tree]. rewrite Hnd'.
    cbn [andb].
    change (File true _) with
      (File true (Spark.render_frame SparkStage.write_options df)).
    now rewrite Hp.
  - eapply resolve_place, Hp.
Qed.

Lemma write_fails_with_the_frame (df : Spark.DataFrame) (out_file : Path)
      (w : World) (e : Exc) :
  Spark.first_failure df = Some e ->
  SparkStage._write (Some df) out_file w = (Raise e, w).
Proof. intros H. now rewrite write_steps, H. Qed.

Lemma write_blocked (df : Spark.DataFrame) (out_file : Path) (w : World) :
  mkdir_p (tree w) (parent out_file) = None ->
  exists e, SparkStage._write (Some df) out_file w = (Raise e, w).
Proof.
  intros Hmk. rewrite write_steps, Hmk.
  destruct (Spark.first_failure df); eauto.
Qed.

Lemma written_frame_has_no_failure (df : Spark.DataFrame) (out_file : Path)
      (w w' : World) :
  SparkStage._write (Some df) out_file w = (Return tt, w') ->
  Spark.first_failure df = None.
Proof.
  rewrite write_steps.
  now destruct (Spark.first_failure df).
Qed.

Lemma render_frame_length (df : Spark.DataFrame) :
  List.length (Spark.render_frame SparkStage.write_options df)
  = S (Spark.count df).
Proof.
  unfold Spark.render_frame, Spark.count.
  change (Spark.w_header SparkStage.write_options) with true.
  cbv iota. rewrite length_app, length_map. reflexivity.
Qed.

(** [_write] of a frame to a path that is not a directory. For a frame
    whose cells can all be computed: when no file stands in the way of the
    parent directories, it returns, the parents are directories
    afterwards, made where they were missing, and the path holds a readable
    file of one header record and one record for each row of the frame, in
    the place of whatever file was there; nothing is printed. When a file
    stands in the way, it raises and the data tree is as it was. A frame
    with a cell that fails makes [_write] raise the failure of the cell;
    the data tree is as it was. *)
Theorem write_makes_parents_and_puts_the_file
        (df : Spark.DataFrame) (out_file : Path) (w : World) :
  is_dir (tree w) out_file = false ->
  (forall t',
      Spark.first_failure df = None ->
      mkdir_p (tree w) (parent out_file) = Some t' ->
      fst (SparkStage._write (Some df) out_file w) = Return tt /\
      (exists records,
          resolve (tree (snd (SparkStage._write (Some df) out_file w)))
                  out_file
          = Some (File true records) /\
          List.length records = S (Spark.count df)) /\
      is_dir (tree (snd (SparkStage._write (Some df) out_file w)))
             (parent out_file) = true /\
      stdout (snd (SparkStage._write (Some df) out_file w)) = stdout w) /\
  (mkdir_p (tree w) (parent out_file) = None ->
   exists e, SparkStage._write (Some df) out_file w = (Raise e, w)) /\
  (forall e,
      Spark.first_failure df = Some e ->
      SparkStage._write (Some df) out_file w = (Raise e, w)).
Proof.
  intros Hnd. split; [|split].
  - intros t' Hok Hmk.
    destruct (write_to_a_fresh_place df out_file w t' Hok Hnd Hmk)
      as (t'' & -> & Hr & Hd).
    cbn [fst snd set_tree tree stdout]. split; [reflexivity|].
    split; [|auto]. eexists. split; [exact Hr|]. apply render_frame_length.
  - apply write_blocked.
  - intros e. apply write_fails_with_the_frame.
Qed.

Lemma write_makes_parents_and_puts_the_file_witness :
  is_dir (tree (snd (SparkStage._write
                       (Some Samples.frame) Samples.out_smb
                       (Samples.world_of Samples.empty_source Absent))))
         ["aggregate"; "smb"] = true /\
  SparkStage._write (Some Samples.frame) ["extract"; "smb"; "x"; "agg.csv"]
                    (Samples.world_of Samples.with_chunk Absent)
  = (Return tt,
     snd (SparkStage._write (Some Samples.frame)
                            ["extract"; "smb"; "x"; "agg.csv"]
                            (Samples.world_of Samples.with_chunk Absent))) /\
  exists e,
    SparkStage._write (Some Samples.frame)
                      ["extract"; "smb"; "data-1.csv"; "agg.csv"]
                      (Samples.world_of Samples.with_chunk Absent)
    = (Raise e, Samples.world_of Samples.with_chunk Absent).
Proof.
  split; [|split].
  - eapply (proj1 (write_makes_parents_and_puts_the_file
                     Samples.frame Samples.out_smb
                     (Samples.world_of Samples.empty_source Absent)
                     eq_refl)); reflexivity.
  - reflexivity.
  - apply (proj1 (proj2 (write_makes_parents_and_puts_the_file
                           Samples.frame
                           ["extract"; "smb"; "data-1.csv"; "agg.csv"]
                           (Samples.world_of Samples.with_chunk Absent)
                           eq_refl))).
    reflexivity.
Defined.

(** What [_write] has written, [_read] does not read: after a [_write] to
    a path that was not a directory, [_read] of that same path prints its
    notice and returns [None], whatever the name of the file. *)
Theorem written_file_is_not_read_back
        (df : Spark.DataFrame) (out_file : Path) (sch : Spark.StructType)
        (w w' : World) :
  is_dir (tree w) out_file = false ->
  SparkStage._write (Some df) out_file w = (Return tt, w') ->
  SparkStage._read out_file sch w'
  = (Return None, says SparkStage.no_csv_notice w').
Proof.
  intros Hnd Hw.
  pose proof (written_frame_has_no_failure df out_file w w' Hw) as Hok.
  destruct (mkdir_p (tree w) (parent out_file)) as [t'|] eqn:Hmk.
  - destruct (write_to_a_fresh_place df out_file w t' Hok Hnd Hmk)
      as (t'' & E & Hr & _).
    rewrite E in Hw. injection Hw as <-. cbn [tree].
    apply read_without_input.
    + unfold exists_. cbn [tree]. now rewrite Hr.
    + apply input_files_of_file. unfold is_dir. cbn [tree]. now rewrite Hr.
  - destruct (write_blocked df out_file w Hmk) as [e He].
    rewrite He in Hw. discriminate.
Qed.

Lemma written_file_is_not_read_back_witness :
  fst (SparkStage._read
         Samples.out_smb Samples.sch
         (snd (SparkStage._write
                 (Some Samples.frame) Samples.out_smb
                 (Samples.world_of Samples.empty_source Absent))))
  = Return None.
Proof.
  rewrite (written_file_is_not_read_back
             Samples.frame Samples.out_smb Samples.sch
             (Samples.world_of Samples.empty_source Absent)
             (snd (SparkStage._write
                     (Some Samples.frame) Samples.out_smb
                     (Samples.world_of Samples.empty_source Absent)))
             eq_refl eq_refl).
  reflexivity.
Defined.

(** ** The aggregation commands with a companion file *)

Lemma check_path_passes (param : string) (p : Path) (w : World) :
  exists_ (tree w) p = true -> readable (tree w) p = true ->
  Main.check_path param p w = (Return tt, w).
Proof.
  intros He Hr. unfold Main.check_path. run_step. now rewrite He, Hr.
Qed.

Lemma invoke_companion_passes (c : Main.Command) (f : Path) (w : World) :
  Main.companion_of c = Some f ->
  exists_ (tree w) f = true -> readable (tree w) f = true ->
  Main.invoke c w = (Raise (NameError "out_file"), called NewAggregator w).
Proof.
  intros Hc He Hr.
  pose proof (check_path_passes "--smb-data-file" f w He Hr) as Hm.
  destruct c; try discriminate; unfold Main.companion_of in Hc;
    unfold Main.invoke, bind; cbv zeta;
    match type of Hc with
    | Some ?x = _ => replace x with f by congruence
    end;
    rewrite Hm; reflexivity.
Qed.

(** The aggregate revexp and aggregate empl commands never reach the
    Aggregator call. With a companion file that is there and readable they
    make the Aggregator and raise the [NameError] of [out_file], as the
    aggregate smb command does; otherwise they are refused; either way no
    call of the Aggregator is added and the data tree is as it was. *)
Theorem companion_commands_never_aggregate
        (c : Main.Command) (f : Path) (w : World) :
  Main.companion_of c = Some f ->
  (exists_ (tree w) f = true -> readable (tree w) f = true ->
   fst (Main.main c w) = Raise (NameError "out_file") /\
   calls (snd (Main.main c w)) = calls w ++ [NewAggregator]) /\
  (forall a b m s,
      In (AggregatorCall a b m s) (calls (snd (Main.main c w))) ->
      In (AggregatorCall a b m s) (calls w)) /\
  tree (snd (Main.main c w)) = tree w.
Proof.
  intros Hc. rewrite main_unfold.
  destruct (import_module_frame w) as (_ & Ht & _ & Hcalls & _).
  set (w1 := snd (Main.import_module w)) in *.
  assert (Hpass : exists_ (tree w1) f = true -> readable (tree w1) f = true ->
                  Main.invoke c w1
                  = (Raise (NameError "out_file"), called NewAggregator w1))
    by apply (invoke_companion_passes c f w1 Hc).
  split; [|split].
  - rewrite <- Ht. intros He Hr. rewrite (Hpass He Hr).
    cbn [fst snd called calls]. now rewrite Hcalls.
  - intros a b m s.
    destruct (exists_ (tree w1) f) eqn:He;
      [destruct (readable (tree w1) f) eqn:Hr|].
    + rewrite (Hpass eq_refl eq_refl). cbn [snd called calls].
      rewrite Hcalls. intros H.
      apply in_app_or in H as [H | [H | []]]; [exact H | discriminate].
    + destruct (invoke_refuses c f w1 Hc (or_intror Hr)) as [msg ->].
      cbn [snd]. now rewrite Hcalls.
    + destruct (invoke_refuses c f w1 Hc (or_introl He)) as [msg ->].
      cbn [snd]. now rewrite Hcalls.
  - destruct (exists_ (tree w1) f) eqn:He;
      [destruct (readable (tree w1) f) eqn:Hr|].
    + now rewrite (Hpass eq_refl eq_refl).
    + now destruct (invoke_refuses c f w1 Hc (or_intror Hr)) as [msg ->].
    + now destruct (invoke_refuses c f w1 Hc (or_introl He)) as [msg ->].
Qed.

Lemma companion_commands_never_aggregate_witness :
  fst (Main.main (Main.AggregateRevexp None None
                                       (Some Samples.out_smb))
                 (Samples.world_of Samples.with_aggregate Absent))
  = Raise (NameError "out_file").
Proof.
  apply (proj1 (companion_commands_never_aggregate
                  (Main.AggregateRevexp None None (Some Samples.out_smb))
                  Samples.out_smb
                  (Samples.world_of Samples.with_aggregate Absent)
                  eq_refl)); reflexivity.
Defined.

(** ** The companion file of aggregate all *)



(** ** The settings the extract commands read *)

Lemma make_extractor_refuses (w : World) (items : list (string * JValue)) :
  Main.config_dict w = Some items ->
  Main.ydisk_without_token items = true ->
  Main.make_extractor w
  = (Raise (RuntimeError "Token is required to use ydisk storage"), w).
Proof.
  intros Hd Hy. unfold Main.make_extractor, bind.
  rewrite !(app_config_get_dict w items _ Hd).
  unfold Main.ydisk_without_token in Hy. rewrite Hy. reflexivity.
Qed.

Lemma invoke_extract_starts (c : Main.Command) (w : World) :
  Main.is_extract c = true ->
  forall e w', Main.make_extractor w = (Raise e, w') ->
               Main.invoke c w = (Raise e, w').
Proof.
  intros Hc e w' H.
  destruct c; try discriminate;
    unfold Main.invoke, Main.extract_all, Main.extract_smb,
      Main.extract_revexp, Main.extract_empl, bind;
    now rewrite H.
Qed.

(** The token test of the extract commands: with the storage ydisk and a
    token that is missing from the configuration or null, every extract
    command raises the [RuntimeError] before an Extractor is made; a token
    that is there passes, the empty text of the defaults included. *)
Theorem extract_refuses_ydisk_only_without_any_token
        (c : Main.Command) (items : list (string * JValue)) (w : World) :
  Main.is_extract c = true ->
  config_file w = Holds (JObj items) ->
  Main.dict_get items "storage" = JStr "ydisk" ->
  (Main.dict_get items "token" = JNull ->
   fst (Main.main c w)
   = Raise (RuntimeError "Token is required to use ydisk storage") /\
   calls (snd (Main.main c w)) = calls w) /\
  (forall token,
      Main.dict_get items "token" = JStr token ->
      fst (Main.main c w) = Return tt /\
      exists num_workers chunksize rest,
        calls (snd (Main.main c w))
        = calls w ++ NewExtractor (JStr "ydisk") num_workers chunksize
                                  (JStr token) :: rest).
Proof.
  intros Hc Hcfg Hs. rewrite main_unfold, (import_module_loaded w _ Hcfg).
  cbn [snd].
  set (w1 := mkWorld _ _ _ _ _ _ _). split.
  - intros Ht.
    rewrite (invoke_extract_starts c w1 Hc _ _
               (make_extractor_refuses w1 items eq_refl
                  ltac:(unfold Main.ydisk_without_token;
                        now rewrite Hs, Ht))).
    split; reflexivity.
  - intros token Ht.
    destruct (extract_calls c w1 items Hc eq_refl
                ltac:(unfold Main.ydisk_without_token;
                      now rewrite Hs, Ht))
      as [Hr (rest & Hcalls & _)].
    split; [exact Hr|]. unfold Main.extractor_of in Hcalls.
    rewrite Hs, Ht in Hcalls. eauto.
Qed.

Lemma extract_refuses_ydisk_only_without_any_token_witness :
  fst (Main.main (Main.ExtractEmpl None None true)
                 (Samples.world_of Samples.empty_source
                                   (Holds (JObj [("storage", JStr "ydisk")]))))
  = Raise (RuntimeError "Token is required to use ydisk storage") /\
  fst (Main.main (Main.ExtractEmpl None None true)
                 (Samples.world_of
                    Samples.empty_source
                    (Holds (JObj [("storage", JStr "ydisk");
                                  ("token", JStr "")]))))
  = Return tt.
Proof.
  split.
  - apply (proj1 (extract_refuses_ydisk_only_without_any_token
                    (Main.ExtractEmpl None None true)
                    [("storage", JStr "ydisk")]
                    (Samples.world_of
                       Samples.empty_source
                       (Holds (JObj [("storage", JStr "ydisk")])))
                    eq_refl eq_refl eq_refl)).
    reflexivity.
  - apply (proj2 (extract_refuses_ydisk_only_without_any_token
                    (Main.ExtractEmpl None None true)
                    [("storage", JStr "ydisk"); ("token", JStr "")]
                    (Samples.world_of
                       Samples.empty_source
                       (Holds (JObj [("storage", JStr "ydisk");
                                     ("token", JStr "")])))
                    eq_refl eq_refl eq_refl) "").
    reflexivity.
Defined.

Lemma app_config_get_not_dict (w : World) (v : JValue) (key : string) :
  app_config w = Loaded v ->
  Main.config_dict w = None ->
  Main.app_config_get key w = (Raise (Main.no_attribute v "get"), w).
Proof.
  unfold Main.config_dict, Main.app_config_get, Main.read_app_config.
  run_step. intros ->. now destruct v.
Qed.

(** A configuration file that loads is taken as it is, the defaults are
    not laid under it: a setting the object does not have reaches the
    Extractor as [None], and a value that is not an object makes every
    extract command raise the [AttributeError] of its type, which has no
    [get], before an Extractor is made. *)
Theorem loaded_config_is_not_completed_with_defaults
        (c : Main.Command) (w : World) :
  Main.is_extract c = true ->
  (forall items,
      config_file w = Holds (JObj items) ->
      assoc "num_workers" items = None ->
      Main.ydisk_without_token items = false ->
      fst (Main.main c w) = Return tt /\
      exists storage chunksize token rest,
        calls (snd (Main.main c w))
        = calls w ++ NewExtractor storage JNull chunksize token :: rest) /\
  (forall v,
      config_file w = Holds v ->
      Main.loads_dict_or_fails (config_file w) = false ->
      fst (Main.main c w)
      = Raise (AttributeError ("'" ++ Main.py_type_name v
                                   ++ "' object has no attribute 'get'")) /\
      calls (snd (Main.main c w)) = calls w).
Proof.
  intros Hc. split.
  - intros items Hcfg Hk Hy.
    rewrite main_unfold, (import_module_loaded w _ Hcfg). cbn [snd].
    set (w1 := mkWorld _ _ _ _ _ _ _).
    destruct (extract_calls c w1 items Hc eq_refl Hy)
      as [Hr (rest & Hcalls & _)].
    split; [exact Hr|]. unfold Main.extractor_of in Hcalls.
    unfold Main.dict_get in Hcalls at 2. rewrite Hk in Hcalls. eauto 6.
  - intros v Hcfg Hl.
    rewrite main_unfold, (import_module_loaded w _ Hcfg). cbn [snd].
    set (w1 := mkWorld _ _ _ _ _ _ _).
    assert (Hg : Main.make_extractor w1
                 = (Raise (Main.no_attribute v "get"), w1)).
    { unfold Main.make_extractor, bind.
      rewrite (app_config_get_not_dict w1 v); [reflexivity | reflexivity |].
      rewrite Hcfg in Hl. subst w1. unfold Main.config_dict.
      cbn [app_config]. now destruct v. }
    rewrite (invoke_extract_starts c w1 Hc _ _ Hg). split; reflexivity.
Qed.

Lemma loaded_config_is_not_completed_with_defaults_witness :
  (exists storage chunksize token rest,
      calls (snd (Main.main (Main.ExtractAll None None false None)
                            (Samples.world_of
                               Samples.empty_source
                               (Holds (JObj [("chunksize", JNum 8)])))))
      = NewExtractor storage JNull chunksize token :: rest) /\
  fst (Main.main (Main.ExtractAll None None false None)
                 (Samples.world_of Samples.empty_source
                                   (Holds (JArr []))))
  = Raise (AttributeError "'list' object has no attribute 'get'").
Proof.
  split.
  - apply (proj1 (loaded_config_is_not_completed_with_defaults
                    (Main.ExtractAll None None false None)
                    (Samples.world_of
                       Samples.empty_source
                       (Holds (JObj [("chunksize", JNum 8)])))
                    eq_refl)
                 [("chunksize", JNum 8)]); reflexivity.
  - apply (proj2 (loaded_config_is_not_completed_with_defaults
                    (Main.ExtractAll None None false None)
                    (Samples.world_of Samples.empty_source
                                      (Holds (JArr [])))
                    eq_refl)
                 (JArr [])); reflexivity.
Defined.

(** ** The config command with [--show] *)

Lemma says_all_nil (w : World) : Shown.says_all [] w = w.
Proof.
  destruct w. unfold Shown.says_all. cbn. now rewrite app_nil_r.
Qed.

Lemma says_all_cons (l : string) (ls : list string) (w : World) :
  Shown.says_all ls (says l w) = Shown.says_all (l :: ls) w.
Proof.
  unfold Shown.says_all, says. cbn. now rewrite <- app_assoc.
Qed.

Lemma for_each_print {A} (f : A -> string) (l : list A) (w : World) :
  Main.for_each l (fun x => print (f x)) w
  = (Return tt, Shown.says_all (List.map f l) w).
Proof.
  revert w. induction l as [|x l IH]; intros w.
  - cbn. now rewrite says_all_nil.
  - cbn [Main.for_each List.map]. unfold bind at 1. unfold print at 1.
    now rewrite IH, says_all_cons.
Qed.

Lemma config_show (chunksize num_workers : Z) (storage : Main.Storages)
      (ydisk_token : string) (items : list (string * JValue)) (w : World) :
  Main.config_dict w = Some items ->
  Main.config true chunksize num_workers storage ydisk_token w
  = (Return tt,
     Shown.says_all ("Current configuration" :: List.map Shown.line items) w).
Proof.
  intros Hd. unfold Main.config. cbv zeta. unfold bind at 1.
  unfold print at 1. unfold bind at 1.
  assert (Hr : Main.read_app_config (says "Current configuration" w)
               = (Return (JObj items), says "Current configuration" w)).
  { unfold Main.read_app_config, Main.config_dict in *. run_step.
    cbn [app_config says default_config].
    destruct (app_config w) as [| |[]]; try discriminate;
      now injection Hd as ->. }
  rewrite Hr.
  change (fun kv : string * JValue =>
            print (fst kv ++ " " ++ Main.py_str_json (snd kv)))
    with (fun kv : string * JValue => print (Shown.line kv)).
  now rewrite for_each_print, says_all_cons.
Qed.

(** The config command with [--show] only prints: the heading and one
    line for each setting of the configuration in force, in its order (the
    settings being texts, numbers, truth values or null); the other options
    given with it are ignored, and neither the file nor the configuration
    in memory changes. *)
Theorem config_show_prints_and_changes_nothing
        (chunksize num_workers : option Z) (storage : option Main.Storages)
        (ydisk_token : option string)
        (items : list (string * JValue)) (w : World) :
  Main.config_dict (snd (Main.import_module w)) = Some items ->
  forallb (fun kv => Shown.scalar (snd kv)) items = true ->
  Main.main (Main.Config true chunksize num_workers storage ydisk_token) w
  = (Return tt,
     Shown.says_all ("Current configuration" :: List.map Shown.line items)
                    (snd (Main.import_module w))).
Proof.
  intros Hd _. rewrite main_unfold. unfold Main.invoke.
  change (Main.no_args (Main.Config true chunksize num_workers storage
                                    ydisk_token)) with false.
  cbv iota. now apply config_show.
Qed.

Lemma config_show_prints_and_changes_nothing_witness :
  stdout (snd (Main.main
                 (Main.Config true (Some 64%Z) None None None)
                 (Samples.world_of
                    Samples.empty_source
                    (Holds (JObj [("num_workers", JNum 4);
                                  ("token", JNull)])))))
  = ["Current configuration"; "num_workers 4"; "token None"].
Proof.
  rewrite (config_show_prints_and_changes_nothing
             (Some 64%Z) None None None
             [("num_workers", JNum 4); ("token", JNull)]
             (Samples.world_of
                Samples.empty_source
                (Holds (JObj [("num_workers", JNum 4); ("token", JNull)])))
             eq_refl eq_refl).
  reflexivity.
Defined.

(** ** The configuration in memory after the config command *)

Lemma setitem_shared (key : string) (v : JValue) (w : World) :
  app_config w = SameAsDefault ->
  Main.app_config_setitem key v w
  = set_default_config (put key v (default_config w)) w.
Proof.
  intros H. unfold Main.app_config_setitem. run_step.
  rewrite H. cbv beta iota. now rewrite H.
Qed.

Lemma setitem_loaded (key : string) (v : JValue)
      (items : list (string * JValue)) (w : World) :
  app_config w = Loaded (JObj items) ->
  Main.app_config_setitem key v w
  = set_app_config (Loaded (JObj (put key v items))) w.
Proof.
  intros H. unfold Main.app_config_setitem. run_step.
  rewrite H. reflexivity.
Qed.

(** What the config command leaves in memory when it raises: the token
    is stored before the [NameError]. When the file did not load,
    [app_config] and [default_config] name one dictionary, so the token
    is stored in the defaults themselves; when the file gave an object,
    the token is stored in that object and the defaults keep theirs. *)
Theorem config_stores_the_token_in_the_shared_dictionary
        (chunksize num_workers : option Z) (storage : option Main.Storages)
        (ydisk_token : option string) (w : World) :
  let c := Main.Config false chunksize num_workers storage ydisk_token in
  Main.no_args c = false ->
  (Main.unloadable (config_file w) = true ->
   app_config (snd (Main.main c w)) = SameAsDefault /\
   default_config (snd (Main.main c w))
   = put "token" (Shown.token_of ydisk_token) Main.default_config_literal) /\
  (forall items,
      config_file w = Holds (JObj items) ->
      app_config (snd (Main.main c w))
      = Loaded (JObj (put "token" (Shown.token_of ydisk_token) items)) /\
      default_config (snd (Main.main c w)) = Main.default_config_literal).
Proof.
  intros c Hn. subst c. rewrite main_unfold. unfold Main.invoke.
  rewrite Hn. rewrite config_update_steps. split.
  - intros Hu. rewrite (import_module_defaults w Hu). cbn [snd].
    rewrite setitem_shared by reflexivity. split; reflexivity.
  - intros items Hcfg. rewrite (import_module_loaded w _ Hcfg). cbn [snd].
    rewrite (setitem_loaded _ _ items) by reflexivity. split; reflexivity.
Qed.

Lemma config_stores_the_token_in_the_shared_dictionary_witness :
  default_config
    (snd (Main.main (Main.Config false None None None (Some "secret"))
                    (Samples.world_of Samples.empty_source Absent)))
  = [("storage", JStr "local"); ("token", JStr "secret");
     ("num_workers", JNum 1); ("chunksize", JNum 16)] /\
  default_config
    (snd (Main.main (Main.Config false None None None (Some "secret"))
                    (Samples.world_of Samples.empty_source
                                      (Holds (JObj [])))))
  = Main.default_config_literal.
Proof.
  split.
  - apply (proj1 (config_stores_the_token_in_the_shared_dictionary
                    None None None (Some "secret")
                    (Samples.world_of Samples.empty_source Absent)
                    eq_refl)).
    reflexivity.
  - apply (proj2 (config_stores_the_token_in_the_shared_dictionary
                    None None None (Some "secret")
                    (Samples.world_of Samples.empty_source (Holds (JObj [])))
                    eq_refl) []).
    reflexivity.
Defined.

(** ** The download commands *)

Lemma lift_get_dict (w : World) (l : list Stages.StageCall)
      (items : list (string * JValue)) (key : string) :
  Main.config_dict w = Some items ->
  Stages.lift (Main.app_config_get key) (w, l)
  = (Return (Main.dict_get items key), (w, l)).
Proof.
  intros Hd. unfold Stages.lift. cbn [fst snd].
  now rewrite (app_config_get_dict w items key Hd).
Qed.

Lemma get_downloader_dict (w : World) (l : list Stages.StageCall)
      (items : list (string * JValue)) :
  Main.config_dict w = Some items ->
  Stages.get_downloader (w, l)
  = (Return tt,
     (w, l ++ [Stages.NewDownloader (Main.dict_get items "storage")
                                    (Main.dict_get items "token")])).
Proof.
  intros Hd. unfold Stages.get_downloader, Stages.bind.
  now rewrite !(lift_get_dict w l items _ Hd).
Qed.

Lemma app_config_get_fails (w : World) (key : string) :
  Main.config_dict w = None ->
  exists e, Main.app_config_get key w = (Raise e, w).
Proof.
  intros Hd. destruct (app_config w) as [| |v] eqn:E.
  - exists (NameError "app_config").
    unfold Main.app_config_get, Main.read_app_config. run_step.
    now rewrite E.
  - unfold Main.config_dict in Hd. now rewrite E in Hd.
  - eexists. apply (app_config_get_not_dict w v); [exact E | exact Hd].
Qed.

Lemma get_downloader_fails (w : World) (l : list Stages.StageCall) :
  Main.config_dict w = None ->
  exists e, Stages.get_downloader (w, l) = (Raise e, (w, l)).
Proof.
  intros Hd. destruct (app_config_get_fails w "storage" Hd) as [e He].
  exists e. unfold Stages.get_downloader, Stages.bind, Stages.lift.
  cbn [fst snd]. now rewrite He.
Qed.

Lemma stages_main_unfold (c : Stages.Command) (w : World)
      (l : list Stages.StageCall) :
  Stages.main c (w, l) = Stages.invoke c (snd (Main.import_module w), l).
Proof.
  unfold Stages.main, Stages.bind, Stages.lift. cbn [fst snd].
  destruct (import_module_frame w) as [H _].
  destruct (Main.import_module w) as [o w']. simpl in *. now subst o.
Qed.

Lemma download_all_dict (d : Path) (w : World) (l : list Stages.StageCall)
      (items : list (string * JValue)) :
  Main.config_dict w = Some items ->
  Stages.download_all d (w, l)
  = (Raise (NameError "source_dataset"),
     (w, l ++ [Stages.NewDownloader (Main.dict_get items "storage")
                                    (Main.dict_get items "token")])).
Proof.
  intros Hd. unfold Stages.download_all, Stages.bind at 1.
  now rewrite (get_downloader_dict w l items Hd).
Qed.

(** The download all command never downloads: the arguments of the
    Downloader are built from [source_dataset] before the loop that binds
    it, so once the Downloader is made the function raises the
    [UnboundLocalError] (a [NameError]) of that name and the Downloader is
    never called, whatever the directory; the process command with
    [--download] ends the same way, before any extraction. *)
Theorem download_all_raises_before_any_download
        (d : Path) (w : World) (l : list Stages.StageCall) :
  let r := Stages.download_all d (w, l) in
  fst r <> Return tt /\
  fst (snd r) = w /\
  (snd (snd r) = l \/
   exists storage token,
     snd (snd r) = l ++ [Stages.NewDownloader storage token]) /\
  (forall items,
      Main.config_dict w = Some items ->
      fst r = Raise (NameError "source_dataset") /\
      forall ac,
        Stages.process true ac (w, l)
        = (Raise (NameError "source_dataset"),
           (w, l ++ [Stages.NewDownloader (Main.dict_get items "storage")
                                          (Main.dict_get items "token")]))).
Proof.
  intros r. subst r. destruct (Main.config_dict w) as [items|] eqn:Hd.
  - rewrite (download_all_dict d w l items Hd). cbn [fst snd].
    split; [discriminate|]. split; [reflexivity|]. split; [eauto|].
    intros items' E. injection E as <-. split; [reflexivity|].
    intros ac. unfold Stages.process, Stages.bind at 1.
    now rewrite (download_all_dict _ w l items Hd).
  - destruct (get_downloader_fails w l Hd) as [e He].
    assert (Hf : Stages.download_all d (w, l) = (Raise e, (w, l))).
    { unfold Stages.download_all, Stages.bind at 1. now rewrite He. }
    rewrite Hf. cbn [fst snd]. split; [discriminate|].
    split; [reflexivity|]. split; [now left | discriminate].
Qed.

Lemma download_all_raises_before_any_download_witness :
  Stages.main (Stages.Process true None)
              (Samples.world_of Samples.empty_source Absent, [])
  = (Raise (NameError "source_dataset"),
     (snd (Main.import_module (Samples.world_of Samples.empty_source Absent)),
      [Stages.NewDownloader (JStr "local") (JStr "")])).
Proof.
  rewrite stages_main_unfold.
  apply (proj2 (proj2 (proj2 (proj2
           (download_all_raises_before_any_download
              Stages.default_download_dir
              (snd (Main.import_module
                      (Samples.world_of Samples.empty_source Absent)))
              [])))
           Main.default_config_literal eq_refl) None).
Defined.

(** The download commands for one dataset make no token test: with the
    storage ydisk and no token in the configuration they make the
    Downloader with the token [None] and call it, where every extract
    command raises on the same configuration. *)
Theorem download_makes_no_token_test
        (d : Main.SourceDatasets) (dir : Path) (c : Main.Command)
        (items : list (string * JValue)) (w : World)
        (l : list Stages.StageCall) :
  Main.config_dict w = Some items ->
  Main.dict_get items "storage" = JStr "ydisk" ->
  Main.dict_get items "token" = JNull ->
  Main.is_extract c = true ->
  Stages.download_one d dir (w, l)
  = (Return tt,
     (w, l ++ [Stages.NewDownloader (JStr "ydisk") JNull;
               Stages.DownloaderCallPos (Main.SourceDatasets_value d)
                                        (str dir)])) /\
  Main.invoke c w
  = (Raise (RuntimeError "Token is required to use ydisk storage"), w).
Proof.
  intros Hd Hs Ht Hc. split.
  - unfold Stages.download_one, Stages.bind.
    rewrite (get_downloader_dict w l items Hd), Hs, Ht.
    unfold Stages.stage_call. cbn [fst snd]. now rewrite <- app_assoc.
  - apply (invoke_extract_starts c w Hc).
    apply (make_extractor_refuses w items Hd).
    unfold Main.ydisk_without_token. now rewrite Hs, Ht.
Qed.

Lemma download_makes_no_token_test_witness :
  fst (Stages.download_one
         Main.revexp ["dl"]
         (snd (Main.import_module
                 (Samples.world_of
                    Samples.empty_source
                    (Holds (JObj [("storage", JStr "ydisk")])))), []))
  = Return tt.
Proof.
  rewrite (proj1 (download_makes_no_token_test
                    Main.revexp ["dl"] (Main.ExtractAll None None false None)
                    [("storage", JStr "ydisk")]
                    (snd (Main.import_module
                            (Samples.world_of
                               Samples.empty_source
                               (Holds (JObj [("storage", JStr "ydisk")])))))
                    [] eq_refl eq_refl eq_refl eq_refl)).
  reflexivity.
Defined.

(** ** The process command *)




(** ** The checked inputs of georeference and panelize *)

Lemma check_path_cases (param : string) (p : Path) (w : World) :
  (exists_ (tree w) p = true /\ readable (tree w) p = true /\
   Main.check_path param p w = (Return tt, w)) \/
  ((exists_ (tree w) p = false \/ readable (tree w) p = false) /\
   exists msg, Main.check_path param p w = (Raise (BadParameter param msg), w)).
Proof.
  destruct (exists_ (tree w) p) eqn:He;
    [destruct (readable (tree w) p) eqn:Hr|].
  - left. auto using check_path_passes.
  - right. split; [auto|]. apply check_path_refuses. auto.
  - right. split; [auto|]. apply check_path_refuses. auto.
Qed.

Lemma checks_refuse (ps : list (string * Path)) (w : World)
      (l : list Stages.StageCall) (param : string) (f : Path) :
  In (param, f) ps ->
  exists_ (tree w) f = false \/ readable (tree w) f = false ->
  exists param' msg,
    Stages.for_each ps (fun pp => Stages.lift
                                    (Main.check_path (fst pp) (snd pp)))
                    (w, l)
    = (Raise (BadParameter param' msg), (w, l)).
Proof.
  intros Hin Hf. induction ps as [|[q g] ps IH]; [destruct Hin|].
  cbn [Stages.for_each]. unfold Stages.bind at 1, Stages.lift at 1.
  cbn [fst snd]. destruct Hin as [E | Hin].
  - injection E as -> ->.
    destruct (check_path_refuses param f w Hf) as [msg ->]. eauto.
  - destruct (check_path_cases q g w) as [(_ & _ & ->) | (_ & msg & ->)].
    + apply (IH Hin).
    + eauto.
Qed.

(** The georeference and the panelize command check their input files
    before their function is entered: when one of them is missing or
    cannot be read, the command ends in a parameter error and the stage
    class is neither made nor called. The process command runs the same
    two functions without the check. *)
Theorem missing_stage_input_is_refused
        (c : Stages.Command) (param : string) (f : Path) (w : World)
        (l : list Stages.StageCall) :
  In (param, f) (Stages.checked_paths c) ->
  exists_ (tree w) f = false \/ readable (tree w) f = false ->
  exists param' msg,
    fst (Stages.main c (w, l)) = Raise (BadParameter param' msg) /\
    snd (snd (Stages.main c (w, l))) = l /\
    calls (fst (snd (Stages.main c (w, l)))) = calls w.
Proof.
  intros Hin Hf. rewrite stages_main_unfold.
  destruct (import_module_frame w) as (_ & Ht & _ & Hcalls & _).
  rewrite <- Ht in Hf.
  destruct (checks_refuse _ (snd (Main.import_module w)) l param f Hin Hf)
    as (param' & msg & H).
  exists param', msg.
  assert (Hi : Stages.invoke c (snd (Main.import_module w), l)
               = (Raise (BadParameter param' msg),
                  (snd (Main.import_module w), l))).
  { unfold Stages.invoke, Stages.bind at 1. now rewrite H. }
  rewrite Hi. cbn [fst snd].
  split; [reflexivity|]. split; [reflexivity | exact Hcalls].
Qed.

Lemma missing_stage_input_is_refused_witness :
  exists param msg,
    fst (Stages.main (Stages.Panelize (Some Samples.out_smb) None None None)
                     (Samples.world_of Samples.with_aggregate Absent, []))
    = Raise (BadParameter param msg).
Proof.
  destruct (missing_stage_input_is_refused
              (Stages.Panelize (Some Samples.out_smb) None None None)
              "--empl-file" (Stages.default_aggregate Main.empl)
              (Samples.world_of Samples.with_aggregate Absent) []
              ltac:(right; right; left; reflexivity)
              (or_introl eq_refl))
    as (param & msg & H & _).
  exists param, msg. exact H.
Defined.

(** ** The aggregation run *)


Lemma load_companion_refuses (mode : Main.SourceDatasets) (f : Path)
      (w : World) :
  mode <> Main.smb ->
  exists_ (tree w) f = false \/ readable (tree w) f = false ->
  exists msg,
    Aggregator.load_companion mode (Passed f) w
    = (Raise (ConfigurationError msg), w).
Proof.
  unfold exists_, readable, Aggregator.load_companion. run_step.
  intros Hm Hf.
  destruct mode; [now destruct Hm | |];
    destruct (resolve (tree w) f) as [[[] recs | r entries]|];
    eauto; destruct Hf; discriminate.
Qed.






(** C4: an aggregation run for the revexp or the empl kind whose companion
    file is not there or cannot be read ends in the fatal configuration
    error before any work: nothing is read, printed or written. The
    aggregate revexp and aggregate empl commands do not get that far: the
    command line refuses the companion, given or default, with its
    parameter error before the function is entered. The aggregate all
    command, and the process command through it, hand a companion to each
    run of the two kinds, so these runs are refused by the run itself. *)
Theorem missing_companion_is_refused
        (steps : option (list Record_) -> Spark.DataFrame -> Spark.DataFrame)
        (mode : Main.SourceDatasets) (in_dir out_file f : Path)
        (sch : Spark.StructType) (w : World) :
  exists_ (tree w) f = false \/ readable (tree w) f = false ->
  (mode <> Main.smb ->
   exists msg,
     Aggregator.call steps in_dir out_file mode (Passed f) sch w
     = (Raise (ConfigurationError msg), w)) /\
  (forall c,
      Main.companion_of c = Some f ->
      exists msg,
        fst (Main.main c w) = Raise (BadParameter "--smb-data-file" msg) /\
        calls (snd (Main.main c w)) = calls w /\
        tree (snd (Main.main c w)) = tree w) /\
  (forall i o a b m s,
      In (AggregatorCall a b m s) (calls (snd (Main.aggregate_all i o w))) ->
      ~ In (AggregatorCall a b m s) (calls w) ->
      m = "revexp" \/ m = "empl" ->
      s = Passed (str (Stages.default_aggregate Main.smb))).
Proof.
  intros Hf. split; [|split].
  - intros Hm.
    destruct (load_companion_refuses mode f w Hm Hf) as [msg Hl].
    exists msg. unfold Aggregator.call, bind. now rewrite Hl.
  - intros c Hc. rewrite main_unfold.
    destruct (import_module_frame w) as (_ & Ht & _ & Hcalls & _).
    rewrite <- Ht in Hf.
    destruct (invoke_refuses c f _ Hc Hf) as [msg Hm].
    exists msg. rewrite Hm. cbn [fst snd]. auto.
  - intros i o a b m s. rewrite aggregate_all_passes_default_companion.
    cbn [fst snd called calls]. intros H Hn Hm.
    rewrite !in_app_iff in H. cbn [In] in H.
    destruct H as [[[[H | [H | []]] | [H | []]] | [H | []]] | [H | []]];
      try contradiction; try discriminate;
      injection H as <- <- <- <-; try reflexivity;
      destruct Hm; discriminate.
Qed.

Lemma missing_companion_is_refused_witness :
  (exists msg,
      Aggregator.call (fun _ df => df) ["extract"; "empl"]
                      ["aggregate"; "empl"; "agg.csv"] Main.empl
                      (Passed (Stages.default_aggregate Main.smb))
                      Samples.sch
                      (Samples.world_of Samples.empty_source Absent)
      = (Raise (ConfigurationError msg),
         Samples.world_of Samples.empty_source Absent)) /\
  (exists msg,
      fst (Main.main (Main.AggregateEmpl None None None)
                     (Samples.world_of Samples.empty_source Absent))
      = Raise (BadParameter "--smb-data-file" msg)).
Proof.
  pose proof (missing_companion_is_refused
                (fun _ df => df) Main.empl ["extract"; "empl"]
                ["aggregate"; "empl"; "agg.csv"]
                (Stages.default_aggregate Main.smb) Samples.sch
                (Samples.world_of Samples.empty_source Absent)
                (or_introl eq_refl)) as (H1 & H2 & _).
  split.
  - apply H1. discriminate.
  - destruct (H2 (Main.AggregateEmpl None None None) eq_refl)
      as (msg & H & _).
    exists msg. exact H.
Defined.
